(** * Audiogram plotter: data normalisation and unit conversion

    A shallow embedding of the computational core of
    [audiogram_plotter.py] (class [AudiogramPlotter]): the turning-point
    text parser, the amplitude-code series builder with its calibration
    lookup, the RETSPL conversion and the pure-tone average.

    Python values are modelled as follows.
    - [int] is [Z]; [float] is IEEE-754 binary64, given by the
      specification of [SpecFloat] at precision 53 and maximal exponent
      1024 (round to nearest, ties to even);
    - [dict] with string keys is [gmap string _]; a missing key raises
      [KeyError];
    - [str] is [string], restricted to ASCII text: the classes [\s] and
      [\d] are the ASCII members of Python's Unicode classes;
    - exceptions are the [Raise] results of the [result] type.

    Plotting, console printing and the file dialogs are not modelled;
    what the plot functions hand to them is collected in a report
    record. Files are given by their content once read: a document is
    what [json.load] returned, a text is what [f.read()] returned.

    Three behaviours of the interpreter are left out: the limit on the
    number of digits [int] accepts (4300 by default from CPython 3.11),
    the compensated summation [sum] applies to floats from CPython 3.12
    ([sum] is the plain sum from left to right here; the sums evaluated
    below are exact, so that both agree on them), and values of other
    types than those of the documented formats (a text where a number
    is expected). *)

From Stdlib Require Import ZArith String Ascii List Bool Lia Sorted.
From Stdlib Require Import SpecFloat DecimalString.
From stdpp Require Import gmap strings.

Local Open Scope string_scope.
Local Open Scope list_scope.
Local Open Scope Z_scope.

(** ** Numbers *)

Module Float64.

Definition prec : Z := 53.
Definition emax : Z := 1024.

(** A Python float is a [spec_float] in canonical form ([valid_binary]);
    the operations below return canonical numbers. *)
Definition float : Type := spec_float.

Definition add : float -> float -> float := SFadd prec emax.
Definition sub : float -> float -> float := SFsub prec emax.
Definition div : float -> float -> float := SFdiv prec emax.
Definition eqb : float -> float -> bool := SFeqb.

Definition is_zero (x : float) : bool :=
  match x with
  | S754_zero _ => true
  | _ => false
  end.

Definition is_infinity (x : float) : bool :=
  match x with
  | S754_infinity _ => true
  | _ => false
  end.

(** An integer as an exact, not yet rounded, operand. *)
Definition exact (z : Z) : float :=
  match z with
  | Z0 => S754_zero false
  | Zpos p => S754_finite false p 0
  | Zneg p => S754_finite true p 0
  end.

(** Whether the number [x] is the integer [z]. *)
Definition eqb_Z (x : float) (z : Z) : bool :=
  match x with
  | S754_zero _ => z =? 0
  | S754_finite s m e =>
      let v := if s then Zneg m else Zpos m in
      if 0 <=? e then z =? v * 2 ^ e else z * 2 ^ (- e) =? v
  | _ => false
  end.

(** The binary64 number nearest to the integer [z]. *)
Definition of_Z (z : Z) : float := binary_normalize prec emax z 0 false.

(** The binary64 number nearest to the quotient [n / d] of two
    integers, [d] not zero. *)
Definition of_ratio (n d : Z) : float := div (exact n) (exact d).

End Float64.

Abbreviation float := Float64.float.

(** A Python number: [json.load] gives [int] for a literal without
    fraction or exponent and [float] otherwise. *)
Inductive pynum : Type :=
| PyInt (z : Z)
| PyFloat (x : float).

(** ** Exceptions and the result monad *)

(** The key a [KeyError] reports: a text or a number. *)
Inductive pykey : Type :=
| StrKey (s : string)
| NumKey (n : pynum).

Coercion StrKey : string >-> pykey.

Inductive exn : Type :=
| KeyError (key : pykey)
| IndexError
| ValueError
| OverflowError
| ZeroDivisionError.

Inductive result (A : Type) : Type :=
| Ok (a : A)
| Raise (e : exn).

Arguments Ok {A} a.
Arguments Raise {A} e.

(** [result] is an error monad; stdpp's [x ← r; k] sequences two steps
    and stops at the first exception. *)
#[export] Instance result_ret : MRet result := fun A a => Ok a.

#[export] Instance result_bind : MBind result := fun A B k r =>
  match r with
  | Ok a => k a
  | Raise e => Raise e
  end.

(** [d[k]] on a dictionary. *)
Definition getitem {V : Type} (d : gmap string V) (k : string) : result V :=
  match d !! k with
  | Some v => Ok v
  | None => Raise (KeyError k)
  end.

(** [k in d] on a dictionary. *)
Definition contains {V : Type} (d : gmap string V) (k : string) : bool :=
  match d !! k with
  | Some _ => true
  | None => false
  end.

(** [l[i]] on a list: a negative index counts from the end, and an index
    outside [-len, len) raises [IndexError]. *)
Definition list_index {A : Type} (l : list A) (i : Z) : result A :=
  let n := Z.of_nat (length l) in
  let j := if i <? 0 then i + n else i in
  if (j <? 0) || (n <=? j) then Raise IndexError
  else match nth_error l (Z.to_nat j) with
       | Some a => Ok a
       | None => Raise IndexError
       end.

(** ** Arithmetic *)

(** [float(z)] for an integer, as done by mixed arithmetic. *)
Definition float_of_int (z : Z) : result float :=
  let x := Float64.of_Z z in
  if Float64.is_infinity x then Raise OverflowError else Ok x.

Definition to_float (a : pynum) : result float :=
  match a with
  | PyInt z => float_of_int z
  | PyFloat x => Ok x
  end.

Definition py_add (a b : pynum) : result pynum :=
  match a, b with
  | PyInt x, PyInt y => Ok (PyInt (x + y))
  | _, _ =>
      x ← to_float a;
      y ← to_float b;
      Ok (PyFloat (Float64.add x y))
  end.

Definition py_sub (a b : pynum) : result pynum :=
  match a, b with
  | PyInt x, PyInt y => Ok (PyInt (x - y))
  | _, _ =>
      x ← to_float a;
      y ← to_float b;
      Ok (PyFloat (Float64.sub x y))
  end.

(** [b == 0] *)
Definition py_is_zero (b : pynum) : bool :=
  match b with
  | PyInt y => y =? 0
  | PyFloat y => Float64.is_zero y
  end.

(** True division [a / b]: the quotient of two integers is rounded once;
    otherwise both operands are converted, then a zero divisor is
    refused. *)
Definition py_truediv (a b : pynum) : result pynum :=
  match a, b with
  | PyInt x, PyInt y =>
      if y =? 0 then Raise ZeroDivisionError
      else
        let q := Float64.of_ratio x y in
        if Float64.is_infinity q then Raise OverflowError else Ok (PyFloat q)
  | _, _ =>
      x ← to_float a;
      y ← to_float b;
      if py_is_zero b then Raise ZeroDivisionError
      else Ok (PyFloat (Float64.div x y))
  end.

(** [a == b] on numbers. *)
Definition py_eqb (a b : pynum) : bool :=
  match a, b with
  | PyInt x, PyInt y => x =? y
  | PyFloat x, PyFloat y => Float64.eqb x y
  | PyInt x, PyFloat y => Float64.eqb_Z y x
  | PyFloat x, PyInt y => Float64.eqb_Z x y
  end.

(** [sum(l)]: the items are added from left to right, starting from the
    integer 0. *)
Fixpoint sum_from (acc : pynum) (l : list pynum) : result pynum :=
  match l with
  | [] => Ok acc
  | x :: l' => acc' ← py_add acc x; sum_from acc' l'
  end.

Definition py_sum (l : list pynum) : result pynum := sum_from (PyInt 0) l.


(** ** Text *)

(** [str.isspace] and the class [\s] on ASCII: tab, line feed, vertical
    tab, form feed, carriage return, the four separators 28 to 31 and the
    space. *)
Definition is_space (c : ascii) : bool :=
  let n := Z.of_nat (nat_of_ascii c) in
  ((9 <=? n) && (n <=? 13)) || ((28 <=? n) && (n <=? 32)).

(** The class [\d] on ASCII. *)
Definition is_digit (c : ascii) : bool :=
  let n := Z.of_nat (nat_of_ascii c) in
  (48 <=? n) && (n <=? 57).

(** The class [[\d.]]. *)
Definition is_digit_or_dot (c : ascii) : bool :=
  is_digit c || Ascii.eqb c ".".

Fixpoint string_drop (n : nat) (s : string) : string :=
  match n, s with
  | O, _ => s
  | S n', String _ s' => string_drop n' s'
  | S _, EmptyString => EmptyString
  end.

(** Whether the text [s] starts with the text [p]. *)
Fixpoint starts_with (p s : string) : bool :=
  match p, s with
  | EmptyString, _ => true
  | String a p', String b s' => Ascii.eqb a b && starts_with p' s'
  | String _ _, EmptyString => false
  end.

Fixpoint string_forallb (p : ascii -> bool) (s : string) : bool :=
  match s with
  | EmptyString => true
  | String c s' => p c && string_forallb p s'
  end.

(** [s.split(sep)] for a non-empty separator: the text is cut at each
    occurrence of [sep], found from left to right without overlap. [skip]
    counts the characters of an occurrence still to be passed over. *)
Fixpoint split_from (sep : string) (skip : nat) (s : string) : list string :=
  match s with
  | EmptyString => [EmptyString]
  | String c s' =>
      match skip with
      | S k => split_from sep k s'
      | O =>
          if starts_with sep s
          then EmptyString :: split_from sep (String.length sep - 1) s'
          else match split_from sep O s' with
               | b :: bs => String c b :: bs
               | [] => [String c EmptyString]
               end
      end
  end.

Definition str_split (sep s : string) : list string := split_from sep O s.

(** [s.strip()]: leading and trailing white space removed. *)
Fixpoint lstrip (s : string) : string :=
  match s with
  | EmptyString => EmptyString
  | String c s' => if is_space c then lstrip s' else s
  end.

Fixpoint rstrip (s : string) : string :=
  match s with
  | EmptyString => EmptyString
  | String c s' =>
      match rstrip s' with
      | EmptyString => if is_space c then EmptyString else String c EmptyString
      | t => String c t
      end
  end.

Definition str_strip (s : string) : string := rstrip (lstrip s).

(** The truth value of a text: the empty text is false. *)
Definition str_bool (s : string) : bool :=
  match s with
  | EmptyString => false
  | String _ _ => true
  end.

(** [int(s)] for a text of decimal digits. *)
Definition digit_value (c : ascii) : Z := Z.of_nat (nat_of_ascii c) - 48.

Fixpoint digits_from (acc : Z) (s : string) : Z :=
  match s with
  | EmptyString => acc
  | String c s' => digits_from (10 * acc + digit_value c) s'
  end.

Definition int_of_digits (s : string) : Z := digits_from 0 s.

(** The text before the first dot, and the text after it when there is
    one. *)
Fixpoint cut_at_dot (s : string) : string * option string :=
  match s with
  | EmptyString => (EmptyString, None)
  | String c s' =>
      if Ascii.eqb c "." then (EmptyString, Some s')
      else let '(a, b) := cut_at_dot s' in (String c a, b)
  end.

(** [float(s)] for a text made of decimal digits and dots, the only
    texts group 1 of the [turnpointMean] pattern captures: digits with at
    most one dot and at least one digit denote a decimal number, which is
    rounded once to binary64; any other such text raises [ValueError]. *)
Definition float_of_decimal (s : string) : result float :=
  let '(ip, fp) := cut_at_dot s in
  let fp := default EmptyString fp in
  if string_forallb is_digit ip && string_forallb is_digit fp
     && str_bool (ip +:+ fp)
  then Ok (Float64.of_ratio (int_of_digits (ip +:+ fp))
                            (10 ^ Z.of_nat (String.length fp)))
  else Raise ValueError.

(** ** Regular expressions

    The fragment of [re] the parser uses, with Python's backtracking
    order: [matches r s] lists the ways [r] matches a prefix of [s], the
    one Python prefers first. *)

Inductive regex : Type :=
| Lit (s : string)
| Plus (cls : ascii -> bool)
| Seq (r1 r2 : regex)
| Alt (r1 r2 : regex)
| Group (r : regex).

Record rmatch : Type := RMatch {
  matched : string;
  rest : string;
  group1 : option string
}.

(** A greedy [c+]: the longest run first. *)
Fixpoint plus_matches (cls : ascii -> bool) (s : string) : list rmatch :=
  match s with
  | EmptyString => []
  | String c s' =>
      if cls c
      then map (fun m => RMatch (String c (matched m)) (rest m) None)
               (plus_matches cls s')
           ++ [RMatch (String c EmptyString) s' None]
      else []
  end.

Fixpoint matches (r : regex) (s : string) : list rmatch :=
  match r with
  | Lit l =>
      if starts_with l s
      then [RMatch l (string_drop (String.length l) s) None]
      else []
  | Plus cls => plus_matches cls s
  | Seq r1 r2 =>
      flat_map (fun m1 =>
        map (fun m2 =>
               RMatch (matched m1 +:+ matched m2) (rest m2)
                      (match group1 m2 with
                       | Some g => Some g
                       | None => group1 m1
                       end))
            (matches r2 (rest m1)))
        (matches r1 s)
  | Alt r1 r2 => matches r1 s ++ matches r2 s
  | Group r' =>
      map (fun m => RMatch (matched m) (rest m) (Some (matched m)))
          (matches r' s)
  end.

(** [re.search(r, s)]: the preferred match at the leftmost position that
    has one. *)
Fixpoint re_search (r : regex) (s : string) : option rmatch :=
  match matches r s with
  | m :: _ => Some m
  | [] =>
      match s with
      | EmptyString => None
      | String _ s' => re_search r s'
      end
  end.

(** [m.group(1)]; every pattern below has exactly one group, which takes
    part in every match. *)
Definition group (m : rmatch) : string := default EmptyString (group1 m).

(** [r'Ear:\s+(Left|Right)'] *)
Definition ear_re : regex :=
  Seq (Lit "Ear:") (Seq (Plus is_space) (Group (Alt (Lit "Left") (Lit "Right")))).

(** [r'Frequency \(Hz\):\s+(\d+)'] *)
Definition freq_re : regex :=
  Seq (Lit "Frequency (Hz):") (Seq (Plus is_space) (Group (Plus is_digit))).

(** [r'turnpointMean\s+=\s+([\d.]+)'] *)
Definition turnpoint_re : regex :=
  Seq (Lit "turnpointMean")
      (Seq (Plus is_space)
           (Seq (Lit "=") (Seq (Plus is_space) (Group (Plus is_digit_or_dot))))).

(** ** Documents

    Both input formats are read into four levels of dictionaries,
    [data["audiogram"][channel][slot][field]], whose leaves are numbers. *)

Abbreviation fields := (gmap string pynum).
Abbreviation channel := (gmap string (gmap string pynum)).
Abbreviation audiogram := (gmap string (gmap string (gmap string pynum))).
Abbreviation document :=
  (gmap string (gmap string (gmap string (gmap string pynum)))).

(** [f"freq_{idx}"] *)
Definition freq_key (idx : nat) : string :=
  "freq_" +:+ NilEmpty.string_of_uint (Nat.to_uint idx).

(** [for idx in range(n)] over a loop body that may raise. *)
Fixpoint for_each {S : Type} (body : S -> nat -> result S)
    (idxs : list nat) (st : S) : result S :=
  match idxs with
  | [] => Ok st
  | idx :: idxs' => st' ← body st idx; for_each body idxs' st'
  end.

(** ** Turning-point text parser *)

Definition delimiter : string :=
  "*******************************************************".

Definition freq_hz_to_index (frequency : Z) : option nat :=
  match frequency with
  | 125 => Some 0%nat
  | 250 => Some 1%nat
  | 500 => Some 2%nat
  | 1000 => Some 3%nat
  | 2000 => Some 4%nat
  | 4000 => Some 5%nat
  | 8000 => Some 6%nat
  | _ => None
  end.

(** The body of the loop over the blocks; [None] in the middle stands
    for [continue]. *)
Definition parse_block (audiogram_data : audiogram) (block : string)
    : result audiogram :=
  if negb (str_bool (str_strip block)) then Ok audiogram_data
  else
    match re_search ear_re block with
    | None => Ok audiogram_data
    | Some ear_match =>
        let ear := group ear_match in
        let channel := if String.eqb ear "Left" then "ch_0" else "ch_1" in
        match re_search freq_re block with
        | None => Ok audiogram_data
        | Some freq_match =>
            let frequency := int_of_digits (group freq_match) in
            match re_search turnpoint_re block with
            | None => Ok audiogram_data
            | Some turnpoint_match =>
                dbspl ← float_of_decimal (group turnpoint_match);
                match freq_hz_to_index frequency with
                | Some freq_idx =>
                    slots ← getitem audiogram_data channel;
                    Ok (<[channel :=
                           <[freq_key freq_idx :=
                              {[ "freq_hz" := PyInt frequency;
                                 "dbSPL" := PyFloat dbspl ]}]> slots]>
                          audiogram_data)
                | None => Ok audiogram_data
                end
            end
        end
    end.

Fixpoint parse_blocks (audiogram_data : audiogram) (blocks : list string)
    : result audiogram :=
  match blocks with
  | [] => Ok audiogram_data
  | block :: blocks' =>
      audiogram_data' ← parse_block audiogram_data block;
      parse_blocks audiogram_data' blocks'
  end.

(** [parse_pychoacoustics_txt], from the text read from the file. *)
Definition parse_pychoacoustics_txt (content : string) : result document :=
  let blocks := str_split delimiter content in
  audiogram_data ← parse_blocks {[ "ch_0" := ∅; "ch_1" := ∅ ]} blocks;
  Ok {[ "audiogram" := audiogram_data ]}.

(** ** Pure-tone average *)

(** [(a + b + c + d) / 4] *)
Definition mean4 (a b c d : pynum) : result pynum :=
  ab ← py_add a b;
  abc ← py_add ab c;
  abcd ← py_add abc d;
  py_truediv abcd (PyInt 4).

(** [sum(l) / len(l) if l else 0] *)
Definition mean_or_zero (l : list pynum) : result pynum :=
  match l with
  | [] => Ok (PyInt 0)
  | _ => s ← py_sum l; py_truediv s (PyInt (Z.of_nat (length l)))
  end.

(** [(l[i] + l[i+1] + l[i+2] + l[i+3]) / 4], the operands read from left
    to right. *)
Definition mean4_at (l : list pynum) (i : Z) : result pynum :=
  a ← list_index l i;
  b ← list_index l (i + 1);
  ab ← py_add a b;
  c ← list_index l (i + 2);
  abc ← py_add ab c;
  d ← list_index l (i + 3);
  abcd ← py_add abc d;
  py_truediv abcd (PyInt 4).

(** ** Turning-point format: conversion to dB HL *)

Definition RETSPL : list (Z * float) :=
  [ (125, Float64.of_ratio 450 10);
    (250, Float64.of_ratio 270 10);
    (500, Float64.of_ratio 135 10);
    (1000, Float64.of_ratio 75 10);
    (2000, Float64.of_ratio 90 10);
    (4000, Float64.of_ratio 120 10);
    (8000, Float64.of_ratio 155 10) ].

(** [self.RETSPL[k]]: a dictionary finds a key that compares equal. *)
Definition RETSPL_getitem (k : pynum) : result float :=
  match find (fun kv => py_eqb (PyInt (fst kv)) k) RETSPL with
  | Some kv => Ok (snd kv)
  | None => Raise (KeyError (NumKey k))
  end.

Record pyco_report : Type := PycoReport {
  valid_freq : list Z;
  valid_dbhl_L : list pynum;
  valid_dbhl_R : list pynum;
  pyco_pta_L : pynum;
  pyco_pta_R : pynum
}.

(** [dbspl - self.RETSPL[freq_hz]] *)
Definition spl_to_hl (dbspl freq_hz : pynum) : result pynum :=
  r ← RETSPL_getitem freq_hz;
  py_sub dbspl (PyFloat r).

(** The body of [for i in range(7)]: the state is the pair of lists
    [dbhl_left] and [dbhl_right]. *)
Definition pyco_step (pyco_data : document)
    (st : list (option pynum) * list (option pynum)) (i : nat)
    : result (list (option pynum) * list (option pynum)) :=
  let '(dbhl_left, dbhl_right) := st in
  let freq_key := freq_key i in
  a ← getitem pyco_data "audiogram";
  c0 ← getitem a "ch_0";
  if contains c0 freq_key then
    e0 ← getitem c0 freq_key;
    freq_hz ← getitem e0 "freq_hz";
    dbspl_L ← getitem e0 "dbSPL";
    dbhl_L ← spl_to_hl dbspl_L freq_hz;
    c1 ← getitem a "ch_1";
    e1 ← getitem c1 freq_key;
    dbspl_R ← getitem e1 "dbSPL";
    dbhl_R ← spl_to_hl dbspl_R freq_hz;
    Ok (dbhl_left ++ [Some dbhl_L], dbhl_right ++ [Some dbhl_R])
  else
    Ok (dbhl_left ++ [None], dbhl_right ++ [None]).

(** [[d for d in l if d is not None]] *)
Definition not_none {A : Type} (l : list (option A)) : list A := omap id l.

(** [[f for f, d in zip(freqs, l) if d is not None]] *)
Fixpoint zip_not_none {A B : Type} (freqs : list A) (l : list (option B))
    : list A :=
  match freqs, l with
  | f :: freqs', Some _ :: l' => f :: zip_not_none freqs' l'
  | _ :: freqs', None :: l' => zip_not_none freqs' l'
  | _, _ => []
  end.

Definition pyco_pta (valid_dbhl_L valid_dbhl_R : list pynum)
    : result (pynum * pynum) :=
  if (6 <=? length valid_dbhl_L)%nat then
    pta_L ← mean4_at valid_dbhl_L 2;
    pta_R ← mean4_at valid_dbhl_R 2;
    Ok (pta_L, pta_R)
  else
    pta_L ← mean_or_zero valid_dbhl_L;
    pta_R ← mean_or_zero valid_dbhl_R;
    Ok (pta_L, pta_R).

Definition plot_pychoacoustics (pyco_data : document) : result pyco_report :=
  let freq_list := [125; 250; 500; 1000; 2000; 4000; 8000] in
  '(dbhl_left, dbhl_right) ← for_each (pyco_step pyco_data) (seq 0 7) ([], []);
  let valid_freq := zip_not_none freq_list dbhl_left in
  let valid_dbhl_L := not_none dbhl_left in
  let valid_dbhl_R := not_none dbhl_right in
  '(pta_L, pta_R) ← pyco_pta valid_dbhl_L valid_dbhl_R;
  Ok (PycoReport valid_freq valid_dbhl_L valid_dbhl_R pta_L pta_R).

(** [load_pychoacoustics] once a file is chosen: an exception of the
    parser or of the plot ends in the error dialog. *)
Inductive outcome (R : Type) : Type :=
| Plotted (report : R)
| ErrorDialog (e : exn)
| CalibrationNotFound.

Arguments Plotted {R} report.
Arguments ErrorDialog {R} e.
Arguments CalibrationNotFound {R}.

Definition guarded {R : Type} (r : result R) : outcome R :=
  match r with
  | Ok report => Plotted report
  | Raise e => ErrorDialog e
  end.

Definition load_pychoacoustics (content : string) : outcome pyco_report :=
  guarded (pyco_data ← parse_pychoacoustics_txt content;
           plot_pychoacoustics pyco_data).

(** ** Amplitude-code format: conversion to dBA *)

(** The calibration document, its top-level fields sorted by the type of
    their value: the arrays of numbers, one per band, and the texts. *)
Record calibration : Type := Calibration {
  bands : gmap string (list pynum);
  info : gmap string string
}.

Definition elbi_freq_map (idx : nat) : option (float * string * Z) :=
  match idx with
  | 0%nat => Some (Float64.of_ratio 625 1000, "250Hz", 250)
  | 1%nat => Some (Float64.of_ratio 1250 1000, "500Hz", 500)
  | 2%nat => Some (Float64.of_ratio 2500 1000, "1000Hz", 1000)
  | 3%nat => Some (Float64.of_ratio 5000 1000, "2000Hz", 2000)
  | 4%nat => Some (Float64.of_ratio 10000 1000, "4000Hz", 4000)
  | 5%nat => Some (Float64.of_ratio 20000 1000, "8000Hz", 8000)
  | _ => None
  end.

Definition elbi_freq_map_getitem (idx : nat) : result (float * string * Z) :=
  match elbi_freq_map idx with
  | Some t => Ok t
  | None => Raise (KeyError (NumKey (PyInt (Z.of_nat idx))))
  end.

(** [int(x)] for a number: a float is truncated towards zero. *)
Definition py_int (a : pynum) : result Z :=
  match a with
  | PyInt z => Ok z
  | PyFloat (S754_zero _) => Ok 0
  | PyFloat (S754_finite s m e) =>
      let v := if 0 <=? e then Zpos m * 2 ^ e else Zpos m / 2 ^ (- e) in
      Ok (if s then - v else v)
  | PyFloat (S754_infinity _) => Raise OverflowError
  | PyFloat S754_nan => Raise ValueError
  end.

(** [calib_data[calib_key][ampl] if ampl < len(calib_data[calib_key]) else 0]:
    the condition is evaluated first. *)
Definition amplitude_to_dba (calib_data : calibration) (calib_key : string)
    (ampl : Z) : result pynum :=
  table ← getitem (bands calib_data) calib_key;
  if ampl <? Z.of_nat (length table) then
    table' ← getitem (bands calib_data) calib_key;
    list_index table' ampl
  else Ok (PyInt 0).

Record series : Type := Series {
  freq_list : list Z;
  dbL : list pynum;
  dbR : list pynum
}.

(** The body of [for idx in range(6)]. *)
Definition elbi_step (elbi_data : document) (calib_data : calibration)
    (st : series) (idx : nat) : result series :=
  let freq_key := freq_key idx in
  a ← getitem elbi_data "audiogram";
  c0 ← getitem a "ch_0";
  if contains c0 freq_key then
    '(freq_khz, calib_key, plot_freq) ← elbi_freq_map_getitem idx;
    let freq_list := freq_list st ++ [plot_freq] in
    s0 ← getitem c0 freq_key;
    ampl_L ← (x ← getitem s0 "ampl"; py_int x);
    db_L ← amplitude_to_dba calib_data calib_key ampl_L;
    let dbL := dbL st ++ [db_L] in
    c1 ← getitem a "ch_1";
    s1 ← getitem c1 freq_key;
    ampl_R ← (x ← getitem s1 "ampl"; py_int x);
    db_R ← amplitude_to_dba calib_data calib_key ampl_R;
    let dbR := dbR st ++ [db_R] in
    Ok (Series freq_list dbL dbR)
  else Ok st.

Definition elbi_series (elbi_data : document) (calib_data : calibration)
    : result series :=
  for_each (elbi_step elbi_data calib_data) (seq 0 6) (Series [] [] []).

Definition elbi_pta (dbL dbR : list pynum) : result (pynum * pynum) :=
  if (5 <=? length dbL)%nat && (5 <=? length dbR)%nat then
    pta_L ← mean4_at dbL 1;
    pta_R ← mean4_at dbR 1;
    Ok (pta_L, pta_R)
  else
    pta_L ← mean_or_zero dbL;
    pta_R ← mean_or_zero dbR;
    Ok (pta_L, pta_R).

Record elbi_report : Type := ElbiReport {
  elbi_series_of : series;
  elbi_pta_L : pynum;
  elbi_pta_R : pynum;
  audio_unit : string;
  calib_text : string
}.

(** [plot_elbicare]: the series, the averages, then the texts of the
    axis label and of the title, which read the calibration's fields. *)
Definition plot_elbicare (elbi_data : document) (calib_data : calibration)
    : result elbi_report :=
  st ← elbi_series elbi_data calib_data;
  '(pta_L, pta_R) ← elbi_pta (dbL st) (dbR st);
  unit ← getitem (info calib_data) "audio_unit";
  headphone ← getitem (info calib_data) "headphone";
  author ← getitem (info calib_data) "author";
  tanggal ← getitem (info calib_data) "tanggal";
  let calib_text :=
    "CALIBRATION: " +:+ headphone +:+ " by " +:+ author +:+ " at " +:+ tanggal in
  Ok (ElbiReport st pta_L pta_R unit calib_text).

(** [load_elbicare] once a file is chosen: [calib_file] is the content
    of the calibration file, [None] when [os.path.exists] fails. *)
Definition load_elbicare (calib_file : option calibration)
    (elbi_data : document) : outcome elbi_report :=
  match calib_file with
  | None => CalibrationNotFound
  | Some calib_data => guarded (plot_elbicare elbi_data calib_data)
  end.

(** ** Vocabulary of the statements and sample inputs *)

(** A calibration with the single band array [10, 20, 30]. *)
Definition calib_example : calibration :=
  Calibration {[ "1000Hz" := [PyInt 10; PyInt 20; PyInt 30] ]} ∅.

(** Whether a computation ended in [ZeroDivisionError]. *)
Definition is_zero_division {A : Type} (r : result A) : bool :=
  match r with
  | Raise ZeroDivisionError => true
  | _ => false
  end.

(** The array [0, 10, ..., 120]. *)
Definition tens_table : list pynum :=
  map (fun k => PyInt (10 * Z.of_nat k)) (seq 0 13).

(** A calibration whose six band arrays all map code [k] to [10 k] dBA,
    for codes 0 to 12. *)
Definition calib_tens : calibration :=
  Calibration
    (list_to_map
       (map (fun band => (band, tens_table))
            ["250Hz"; "500Hz"; "1000Hz"; "2000Hz"; "4000Hz"; "8000Hz"]))
    (list_to_map
       [("audio_unit", "dBA"); ("headphone", "HD 206"); ("author", "lab");
        ("tanggal", "2024-01-01")]).

(** The slot [{"ampl": ampl}]. *)
Definition slot_of (ampl : Z) : fields := {[ "ampl" := PyInt ampl ]}.

(** An amplitude-code document without slot [freq_0] (250 Hz): codes 1,
    2, 3, 4 and 9 at 500, 1000, 2000, 4000 and 8000 Hz, in both ears. *)
Definition elbi_without_250 : document :=
  let ch : channel :=
    list_to_map
      [("freq_1", slot_of 1); ("freq_2", slot_of 2); ("freq_3", slot_of 3);
       ("freq_4", slot_of 4); ("freq_5", slot_of 9)] in
  {[ "audiogram" := {[ "ch_0" := ch; "ch_1" := ch ]} ]}.

(** The line feed. *)
Definition newline : string := String "010"%char EmptyString.

(** One block of a turning-point file, delimiter line included. *)
Definition block_text (ear frequency turnpoint : string) : string :=
  delimiter +:+ newline +:+
  "Ear: " +:+ ear +:+ newline +:+
  "Frequency (Hz): " +:+ frequency +:+ newline +:+
  "turnpointMean = " +:+ turnpoint +:+ newline.

(** The blocks of one ear, one per frequency and level. *)
Definition ear_text (ear : string) (values : list (string * string)) : string :=
  fold_right (fun fv acc => block_text ear (fst fv) (snd fv) +:+ acc)
             EmptyString values.

(** A turning-point text without 125 Hz: both ears measured at 250 to
    8000 Hz, at levels that are 10, 20, 30, 40, 50 and 90 dB HL. *)
Definition pyco_without_125 : string :=
  let values :=
    [("250", "37.0"); ("500", "33.5"); ("1000", "37.5"); ("2000", "49.0");
     ("4000", "62.0"); ("8000", "105.5")] in
  ear_text "Left" values +:+ ear_text "Right" values +:+ delimiter.

(** A turning-point text with both ears measured at 250 to 4000 Hz only,
    at levels that are 10, 20, 30, 40 and 50 dB HL. *)
Definition pyco_250_to_4000 : string :=
  let values :=
    [("250", "37.0"); ("500", "33.5"); ("1000", "37.5"); ("2000", "49.0");
     ("4000", "62.0")] in
  ear_text "Left" values +:+ ear_text "Right" values +:+ delimiter.

(** The float nearest to [n / d], as a number. *)
Definition f64 (n d : Z) : pynum := PyFloat (Float64.of_ratio n d).

(** The canonical grid, the [freq_list] of [plot_pychoacoustics]. *)
Definition canonical_frequencies : list Z :=
  [125; 250; 500; 1000; 2000; 4000; 8000].



(** A run of [n] asterisks. *)
Fixpoint asterisks (n : nat) : string :=
  match n with
  | O => EmptyString
  | S n' => String "*" (asterisks n')
  end.

(** Whether a text is free of asterisks. *)
Definition no_asterisk (s : string) : bool :=
  string_forallb (fun x => negb (Ascii.eqb "*" x)) s.

(** Every match of [r] records a group 1 that satisfies [P]. *)
Definition group_is (P : string -> Prop) (r : regex) : Prop :=
  forall s m, In m (matches r s) -> exists g, group1 m = Some g /\ P g.

(** The data the parser starts from. *)
Definition empty_audiogram : audiogram := {[ "ch_0" := ∅; "ch_1" := ∅ ]}.

(** The frequency and the band a slot stands for. *)
Definition slot_freq (idx : nat) : option Z := snd <$> elbi_freq_map idx.

(** The calibration key of a slot. *)
Definition slot_band (idx : nat) : option string :=
  (fun t => snd (fst t)) <$> elbi_freq_map idx.

(** The frequencies of the slots of [idxs] that channel [c0] holds. *)
Definition elbi_present (c0 : channel) (idxs : list nat) : list Z :=
  omap (fun idx => if contains c0 (freq_key idx) then slot_freq idx else None)
       idxs.

(** The report of a request that ended well. *)
Definition report_of (r : result elbi_report) : elbi_report :=
  match r with
  | Ok report => report
  | Raise _ => ElbiReport (Series [] [] []) (PyInt 0) (PyInt 0) "" ""
  end.

(** The report for [elbi_without_250]. *)
Definition report_without_250 : elbi_report :=
  Eval vm_compute in report_of (plot_elbicare elbi_without_250 calib_tens).

(** An amplitude-code document with slot [freq_0] in the left channel
    only. *)
Definition elbi_left_only : document :=
  {[ "audiogram" := {[ "ch_0" := {[ "freq_0" := slot_of 1 ]}; "ch_1" := ∅ ]} ]}.

(** The same slot in the right channel only. *)
Definition elbi_right_only : document :=
  {[ "audiogram" := {[ "ch_0" := ∅; "ch_1" := {[ "freq_0" := slot_of 1 ]} ]} ]}.





(** Which items of a list are not [None]. *)
Definition flags {A : Type} (l : list (option A)) : list bool :=
  map (fun o => match o with Some _ => true | None => false end) l.

(** Which slots of [idxs] channel [c0] holds. *)
Definition present_flags (c0 : channel) (idxs : list nat) : list bool :=
  map (fun i => contains c0 (freq_key i)) idxs.

(** The items of [fs] whose flag is set. *)
Fixpoint keep {A : Type} (fs : list A) (bs : list bool) : list A :=
  match fs, bs with
  | f :: fs', true :: bs' => f :: keep fs' bs'
  | _ :: fs', false :: bs' => keep fs' bs'
  | _, _ => []
  end.

(** The canonical frequencies of the slots of [idxs] that channel [c0]
    holds. *)
Definition pyco_present (c0 : channel) (idxs : list nat) : list Z :=
  omap (fun i => if contains c0 (freq_key i)
                 then nth_error canonical_frequencies i else None) idxs.

(** A turning-point text with 1000 Hz measured in the left ear only. *)
Definition pyco_left_only : string :=
  block_text "Left" "1000" "35.0" +:+ delimiter.

(** The same measurement in the right ear only. *)
Definition pyco_right_only : string :=
  block_text "Right" "1000" "35.0" +:+ delimiter.

(** The report of a turning-point request that ended well. *)
Definition pyco_report_of (r : result pyco_report) : pyco_report :=
  match r with
  | Ok report => report
  | Raise _ => PycoReport [] [] [] (PyInt 0) (PyInt 0)
  end.

(** What the parser reads from [pyco_without_125]. *)
Definition data_without_125 : document :=
  Eval vm_compute in
    match parse_pychoacoustics_txt pyco_without_125 with
    | Ok d => d
    | Raise _ => ∅
    end.

(** The report for [data_without_125]. *)
Definition pyco_report_without_125 : pyco_report :=
  Eval vm_compute in pyco_report_of (plot_pychoacoustics data_without_125).

(** The entry the parser stores for a frequency and a level. *)
Definition entry_of (frequency : Z) (dbspl : float) : fields :=
  {[ "freq_hz" := PyInt frequency; "dbSPL" := PyFloat dbspl ]}.

(** The three fields of a block when the three patterns match: the
    channel of the ear, the frequency and the text of the level. *)
Definition block_fields (block : string) : option (string * Z * string) :=
  match re_search ear_re block, re_search freq_re block,
        re_search turnpoint_re block with
  | Some ear_match, Some freq_match, Some turnpoint_match =>
      Some (if String.eqb (group ear_match) "Left" then "ch_0" else "ch_1",
            int_of_digits (group freq_match),
            group turnpoint_match)
  | _, _, _ => None
  end.


(** [sep.join(l)] *)
Fixpoint str_join (sep : string) (l : list string) : string :=
  match l with
  | [] => EmptyString
  | [b] => b
  | b :: l' => b +:+ sep +:+ str_join sep l'
  end.

(** The text of one measurement, without delimiter lines. *)
Definition measurement_text (ear frequency turnpoint : string) : string :=
  "Ear: " +:+ ear +:+ newline +:+
  "Frequency (Hz): " +:+ frequency +:+ newline +:+
  "turnpointMean = " +:+ turnpoint.

(** What the first block of the left ear at 1000 Hz leaves in the data. *)
Definition data_left_1000 : audiogram :=
  <["ch_0" := <[freq_key 3 := entry_of 1000 (Float64.of_ratio 35 1)]> ∅]>
    empty_audiogram.

(** The level of slot [i] in one channel of an amplitude-code document:
    the slot's code, converted through the band of the slot. *)
Definition slot_value (calib_data : calibration) (ch : channel) (i : nat)
    : result pynum :=
  s ← getitem ch (freq_key i);
  ampl ← (x ← getitem s "ampl"; py_int x);
  '(freq_khz, calib_key, plot_freq) ← elbi_freq_map_getitem i;
  amplitude_to_dba calib_data calib_key ampl.

(** The slots of [idxs] that channel [c0] holds. *)
Definition present_slots (c0 : channel) (idxs : list nat) : list nat :=
  filter (fun i => contains c0 (freq_key i) = true) idxs.

(** The channel and the audiogram of [elbi_without_250]. *)
Definition channel_without_250 : channel :=
  list_to_map
    [("freq_1", slot_of 1); ("freq_2", slot_of 2); ("freq_3", slot_of 3);
     ("freq_4", slot_of 4); ("freq_5", slot_of 9)].

Definition audiogram_without_250 : audiogram :=
  {[ "ch_0" := channel_without_250; "ch_1" := channel_without_250 ]}.

(** The hearing level of slot [i] of channel [ch] in a turning-point
    document: the level of the slot in [ch], less the RETSPL of the
    frequency recorded in the slot of the left channel [c0]. *)
Definition hl_value (c0 ch : channel) (i : nat) : result pynum :=
  e0 ← getitem c0 (freq_key i);
  freq_hz ← getitem e0 "freq_hz";
  e ← getitem ch (freq_key i);
  dbspl ← getitem e "dbSPL";
  spl_to_hl dbspl freq_hz.

(** Whether a number is a float. *)
Definition is_float (v : pynum) : Prop := exists x, v = PyFloat x.

(** A float, or the integer 0 that the calibration lookup gives for a
    code beyond the array. *)
Definition float_or_zero (v : pynum) : Prop := is_float v \/ v = PyInt 0.

(** A calibration of floats: the array of band 1000 Hz maps the codes 0,
    1 and 2 to 0.0, 5.0 and 10.0 dBA. *)
Definition calib_floats : calibration :=
  Calibration {[ "1000Hz" := [f64 0 1; f64 5 1; f64 10 1] ]}
    (list_to_map
       [("audio_unit", "dBA"); ("headphone", "HD 206"); ("author", "lab");
        ("tanggal", "2024-01-01")]).

(** A document with slot [freq_2] only: code 1 in the left ear, code 7 in
    the right ear. *)
Definition elbi_1000_only : document :=
  {[ "audiogram" :=
       {[ "ch_0" := {[ "freq_2" := slot_of 1 ]};
          "ch_1" := {[ "freq_2" := slot_of 7 ]} ]} ]}.

(** Every array of the calibration holds floats, or the integer 0. *)
Definition float_calibration (calib_data : calibration) : Prop :=
  forall band table,
    bands calib_data !! band = Some table -> Forall float_or_zero table.

(** The text fields the label and the title of the plot read. *)
Definition text_fields : list string :=
  ["audio_unit"; "headphone"; "author"; "tanggal"].


(** An amplitude-code document with the six slots, codes 1 to 6 in the
    left ear and 2 to 7 in the right ear. *)
Definition elbi_channel_left : channel :=
  list_to_map
    [("freq_0", slot_of 1); ("freq_1", slot_of 2); ("freq_2", slot_of 3);
     ("freq_3", slot_of 4); ("freq_4", slot_of 5); ("freq_5", slot_of 6)].

Definition elbi_channel_right : channel :=
  list_to_map
    [("freq_0", slot_of 2); ("freq_1", slot_of 3); ("freq_2", slot_of 4);
     ("freq_3", slot_of 5); ("freq_4", slot_of 6); ("freq_5", slot_of 7)].

Definition elbi_audiogram_full : audiogram :=
  {[ "ch_0" := elbi_channel_left; "ch_1" := elbi_channel_right ]}.

Definition elbi_full : document := {[ "audiogram" := elbi_audiogram_full ]}.

(** The report for [elbi_full]. *)
Definition report_full : elbi_report :=
  Eval vm_compute in report_of (plot_elbicare elbi_full calib_tens).

(** A turning-point document with the seven slots, at 50 dB SPL in the
    left ear and 60 dB SPL in the right ear. *)
Definition pyco_channel_of (dbspl : float) : channel :=
  list_to_map
    [("freq_0", entry_of 125 dbspl); ("freq_1", entry_of 250 dbspl);
     ("freq_2", entry_of 500 dbspl); ("freq_3", entry_of 1000 dbspl);
     ("freq_4", entry_of 2000 dbspl); ("freq_5", entry_of 4000 dbspl);
     ("freq_6", entry_of 8000 dbspl)].

Definition pyco_audiogram_full : audiogram :=
  {[ "ch_0" := pyco_channel_of (Float64.of_ratio 50 1);
     "ch_1" := pyco_channel_of (Float64.of_ratio 60 1) ]}.

Definition pyco_full : document := {[ "audiogram" := pyco_audiogram_full ]}.

(** The report for [pyco_full]. *)
Definition pyco_report_full : pyco_report :=
  Eval vm_compute in pyco_report_of (plot_pychoacoustics pyco_full).

(** A turning-point text whose second block has a level that is not a
    number, at a frequency outside the canonical grid. *)
Definition pyco_bad_level : string :=
  measurement_text "Left" "1000" "35.0" +:+ delimiter +:+
  measurement_text "Right" "3000" "1.2.3".

(** * Properties *)

(** ** Calibration lookup *)

Lemma list_index_in_range {A : Type} (l : list A) (i : Z) :
  0 <= i < Z.of_nat (length l) ->
  list_index l i = match nth_error l (Z.to_nat i) with
                   | Some a => Ok a
                   | None => Raise IndexError
                   end.
Proof.
  intros [Hlo Hhi]. unfold list_index.
  destruct (Z.ltb_spec i 0) as [Hneg | _]; [lia |].
  destruct (Z.ltb_spec i 0) as [Hneg | _]; [lia |].
  destruct (Z.leb_spec (Z.of_nat (length l)) i) as [Hge | _]; [lia |].
  reflexivity.
Qed.

Lemma list_index_lookup {A : Type} (l : list A) (i : nat) (a : A) :
  nth_error l i = Some a -> list_index l (Z.of_nat i) = Ok a.
Proof.
  intros Hnth.
  assert (i < length l)%nat as Hlt by (apply nth_error_Some; congruence).
  rewrite list_index_in_range by lia.
  rewrite Nat2Z.id, Hnth. reflexivity.
Qed.

(** A code that is an index of the band's array gives the array's value
    at that index. *)
Lemma amplitude_to_dba_in_range (calib_data : calibration) (calib_key : string)
    (table : list pynum) (code : nat) (v : pynum) :
  bands calib_data !! calib_key = Some table ->
  nth_error table code = Some v ->
  amplitude_to_dba calib_data calib_key (Z.of_nat code) = Ok v.
Proof.
  intros Hband Hnth. unfold amplitude_to_dba, getitem. rewrite Hband. simpl.
  assert (code < length table)%nat as Hlt by (apply nth_error_Some; congruence).
  destruct (Z.ltb_spec (Z.of_nat code) (Z.of_nat (length table))); [| lia].
  apply list_index_lookup, Hnth.
Qed.

(** A code at or beyond the end of the band's array gives the integer 0. *)
Lemma amplitude_to_dba_beyond (calib_data : calibration) (calib_key : string)
    (table : list pynum) (code : Z) :
  bands calib_data !! calib_key = Some table ->
  Z.of_nat (length table) <= code ->
  amplitude_to_dba calib_data calib_key code = Ok (PyInt 0).
Proof.
  intros Hband Hge. unfold amplitude_to_dba, getitem. rewrite Hband. simpl.
  destruct (Z.ltb_spec code (Z.of_nat (length table))); [lia | reflexivity].
Qed.

(** A negative code passes the guard [ampl < len(...)]: it is read from
    the end of the array when it is at least [-len], and raises
    [IndexError] below that. *)
Lemma amplitude_to_dba_negative (calib_data : calibration) (calib_key : string)
    (table : list pynum) (code : Z) :
  bands calib_data !! calib_key = Some table ->
  code < 0 ->
  amplitude_to_dba calib_data calib_key code =
  list_index table code.
Proof.
  intros Hband Hneg. unfold amplitude_to_dba, getitem. rewrite Hband. simpl.
  destruct (Z.ltb_spec code (Z.of_nat (length table))); [reflexivity | lia].
Qed.

(** C1, at the failing inputs: with the band array [10, 20, 30], the
    negative code -1 gives 30, the last value, and the code -4 raises
    [IndexError]; neither gives 0. Codes 0 to 2 give the array's value
    and codes from 3 on give 0. *)
Theorem amplitude_to_dba_negative_code :
  amplitude_to_dba calib_example "1000Hz" (-1) = Ok (PyInt 30) /\
  amplitude_to_dba calib_example "1000Hz" (-4) = Raise IndexError /\
  amplitude_to_dba calib_example "1000Hz" 2 = Ok (PyInt 30) /\
  amplitude_to_dba calib_example "1000Hz" 3 = Ok (PyInt 0).
Proof. repeat split; vm_compute; reflexivity. Qed.

(** ** Pure-tone average *)

Lemma bind_zero_division {A B : Type} (r : result A) (k : A -> result B) :
  is_zero_division r = false ->
  (forall a, is_zero_division (k a) = false) ->
  is_zero_division (a ← r; k a) = false.
Proof. intros Hr Hk. destruct r as [a | e]; simpl; [apply Hk | exact Hr]. Qed.

Lemma float_of_int_zero_division (z : Z) :
  is_zero_division (float_of_int z) = false.
Proof. unfold float_of_int. destruct (Float64.is_infinity _); reflexivity. Qed.

Lemma to_float_zero_division (a : pynum) : is_zero_division (to_float a) = false.
Proof. destruct a; [apply float_of_int_zero_division | reflexivity]. Qed.

Ltac conversions_zero_division :=
  repeat first
    [ reflexivity
    | apply bind_zero_division;
      [ first [ apply float_of_int_zero_division
              | apply to_float_zero_division
              | reflexivity ]
      | intros ] ].

Lemma py_add_zero_division (a b : pynum) : is_zero_division (py_add a b) = false.
Proof. destruct a, b; simpl; conversions_zero_division. Qed.

Lemma py_truediv_zero_division (a b : pynum) :
  py_is_zero b = false -> is_zero_division (py_truediv a b) = false.
Proof.
  intros Hb. destruct a as [x | x], b as [y | y]; simpl in *.
  - rewrite Hb. destruct (Float64.is_infinity _); reflexivity.
  - apply bind_zero_division; [apply float_of_int_zero_division | intros].
    rewrite Hb. reflexivity.
  - apply bind_zero_division; [apply float_of_int_zero_division | intros].
    rewrite Hb. reflexivity.
  - rewrite Hb. reflexivity.
Qed.

Lemma list_index_zero_division {A : Type} (l : list A) (i : Z) :
  is_zero_division (list_index l i) = false.
Proof.
  unfold list_index. destruct (_ || _); [reflexivity |].
  destruct (nth_error _ _); reflexivity.
Qed.

Lemma sum_from_zero_division (l : list pynum) (acc : pynum) :
  is_zero_division (sum_from acc l) = false.
Proof.
  revert acc. induction l as [| x l IH]; intros acc; simpl; [reflexivity |].
  apply bind_zero_division; [apply py_add_zero_division | intros; apply IH].
Qed.

Lemma mean4_zero_division (a b c d : pynum) :
  is_zero_division (mean4 a b c d) = false.
Proof.
  unfold mean4.
  repeat (apply bind_zero_division; [apply py_add_zero_division | intros]).
  apply py_truediv_zero_division. reflexivity.
Qed.

Lemma mean4_at_zero_division (l : list pynum) (i : Z) :
  is_zero_division (mean4_at l i) = false.
Proof.
  unfold mean4_at.
  repeat (apply bind_zero_division;
          [first [apply list_index_zero_division | apply py_add_zero_division]
          | intros]).
  apply py_truediv_zero_division. reflexivity.
Qed.

Lemma mean_or_zero_zero_division (l : list pynum) :
  is_zero_division (mean_or_zero l) = false.
Proof.
  destruct l as [| x l]; [reflexivity |]. unfold mean_or_zero.
  apply bind_zero_division; [apply sum_from_zero_division | intros s].
  apply py_truediv_zero_division. simpl. reflexivity.
Qed.

Lemma elbi_pta_zero_division (dbL dbR : list pynum) :
  is_zero_division (elbi_pta dbL dbR) = false.
Proof.
  unfold elbi_pta. destruct (_ && _).
  - repeat (apply bind_zero_division; [apply mean4_at_zero_division | intros]).
    reflexivity.
  - repeat (apply bind_zero_division; [apply mean_or_zero_zero_division | intros]).
    reflexivity.
Qed.

Lemma pyco_pta_zero_division (valid_dbhl_L valid_dbhl_R : list pynum) :
  is_zero_division (pyco_pta valid_dbhl_L valid_dbhl_R) = false.
Proof.
  unfold pyco_pta. destruct (_ <=? _)%nat.
  - repeat (apply bind_zero_division; [apply mean4_at_zero_division | intros]).
    reflexivity.
  - repeat (apply bind_zero_division; [apply mean_or_zero_zero_division | intros]).
    reflexivity.
Qed.

(** C9: on the empty series the average of either format is the number
    0, which compares equal to 0.0, and no series, empty or not, makes
    either average raise [ZeroDivisionError]. *)
Theorem pta_empty_series_is_zero :
  elbi_pta [] [] = Ok (PyInt 0, PyInt 0) /\
  pyco_pta [] [] = Ok (PyInt 0, PyInt 0) /\
  py_eqb (PyInt 0) (PyFloat (S754_zero false)) = true /\
  (forall dbL dbR : list pynum, is_zero_division (elbi_pta dbL dbR) = false) /\
  (forall valid_dbhl_L valid_dbhl_R : list pynum,
     is_zero_division (pyco_pta valid_dbhl_L valid_dbhl_R) = false).
Proof.
  repeat split; try reflexivity.
  - apply elbi_pta_zero_division.
  - apply pyco_pta_zero_division.
Qed.

(** With all six slots present, the amplitude-code average is the mean
    of the values at 500, 1000, 2000 and 4000 Hz. *)
Lemma elbi_pta_full (a0 a1 a2 a3 a4 a5 b0 b1 b2 b3 b4 b5 : pynum) :
  elbi_pta [a0; a1; a2; a3; a4; a5] [b0; b1; b2; b3; b4; b5] =
  (pta_L ← mean4 a1 a2 a3 a4; pta_R ← mean4 b1 b2 b3 b4; Ok (pta_L, pta_R)).
Proof. reflexivity. Qed.

(** With all seven frequencies present, the turning-point average is
    the mean of the values at 500, 1000, 2000 and 4000 Hz. *)
Lemma pyco_pta_full (a0 a1 a2 a3 a4 a5 a6 b0 b1 b2 b3 b4 b5 b6 : pynum) :
  pyco_pta [a0; a1; a2; a3; a4; a5; a6] [b0; b1; b2; b3; b4; b5; b6] =
  (pta_L ← mean4 a2 a3 a4 a5; pta_R ← mean4 b2 b3 b4 b5; Ok (pta_L, pta_R)).
Proof. reflexivity. Qed.

(** With five values or more, the amplitude-code average reads positions
    1 to 4 of the series, whatever frequencies stand there. *)
Lemma elbi_pta_positions (a0 a1 a2 a3 a4 b0 b1 b2 b3 b4 : pynum)
    (la lb : list pynum) :
  elbi_pta (a0 :: a1 :: a2 :: a3 :: a4 :: la) (b0 :: b1 :: b2 :: b3 :: b4 :: lb) =
  (pta_L ← mean4 a1 a2 a3 a4; pta_R ← mean4 b1 b2 b3 b4; Ok (pta_L, pta_R)).
Proof.
  unfold elbi_pta. cbn [length Nat.leb andb].
  unfold mean4_at.
  change (1 + 1) with (Z.of_nat 2). change (1 + 2) with (Z.of_nat 3).
  change (1 + 3) with (Z.of_nat 4). change 1 with (Z.of_nat 1).
  rewrite (list_index_lookup (a0 :: _) 1 a1), (list_index_lookup (a0 :: _) 2 a2),
    (list_index_lookup (a0 :: _) 3 a3), (list_index_lookup (a0 :: _) 4 a4)
    by reflexivity.
  rewrite (list_index_lookup (b0 :: _) 1 b1), (list_index_lookup (b0 :: _) 2 b2),
    (list_index_lookup (b0 :: _) 3 b3), (list_index_lookup (b0 :: _) 4 b4)
    by reflexivity.
  reflexivity.
Qed.

(** C2, at the failing inputs. When the lowest frequency is absent and
    the others are present, positions 1 to 4 of the amplitude-code
    series (2 to 5 of the turning-point series) hold 1000, 2000, 4000
    and 8000 Hz: the average is 45.0 where the values at 500 to 4000 Hz
    have mean 25.0, and 52.5 where they have mean 35.0. With 250 to 4000
    Hz present, five values, the turning-point average is the mean 30.0
    of the five, the value at 250 Hz included. *)
Theorem pta_reads_positions_not_frequencies :
  (r ← plot_elbicare elbi_without_250 calib_tens;
   Ok (freq_list (elbi_series_of r), dbL (elbi_series_of r), elbi_pta_L r)) =
  Ok ([500; 1000; 2000; 4000; 8000],
      [PyInt 10; PyInt 20; PyInt 30; PyInt 40; PyInt 90],
      f64 45 1) /\
  mean4 (PyInt 10) (PyInt 20) (PyInt 30) (PyInt 40) = Ok (f64 25 1) /\
  (d ← parse_pychoacoustics_txt pyco_without_125;
   r ← plot_pychoacoustics d;
   Ok (valid_freq r, valid_dbhl_L r, pyco_pta_L r)) =
  Ok ([250; 500; 1000; 2000; 4000; 8000],
      [f64 10 1; f64 20 1; f64 30 1; f64 40 1; f64 50 1; f64 90 1],
      f64 525 10) /\
  (d ← parse_pychoacoustics_txt pyco_250_to_4000;
   r ← plot_pychoacoustics d;
   Ok (valid_freq r, valid_dbhl_L r, pyco_pta_L r)) =
  Ok ([250; 500; 1000; 2000; 4000],
      [f64 10 1; f64 20 1; f64 30 1; f64 40 1; f64 50 1],
      f64 30 1) /\
  mean4 (f64 20 1) (f64 30 1) (f64 40 1) (f64 50 1) = Ok (f64 35 1).
Proof. repeat split; vm_compute; reflexivity. Qed.

(** ** SPL to HL *)





(** ** Splitting into blocks *)


Lemma string_app_empty_r (a : string) : a +:+ EmptyString = a.
Proof.
  induction a as [| x a IH]; [reflexivity |].
  change (String x a +:+ EmptyString) with (String x (a +:+ EmptyString)).
  rewrite IH. reflexivity.
Qed.

Lemma split_from_nonempty (sep : string) (s : string) (skip : nat) :
  split_from sep skip s <> [].
Proof.
  revert skip. induction s as [| c s IH]; intros skip; simpl; [discriminate |].
  destruct skip as [| k]; [| apply IH].
  destruct (starts_with sep (String c s)); [discriminate |].
  destruct (split_from sep 0 s); discriminate.
Qed.



(** A text free of the separator's first character is passed over. *)
Lemma split_from_before (c : ascii) (sep' a s : string) :
  string_forallb (fun x => negb (Ascii.eqb c x)) a = true ->
  split_from (String c sep') 0 (a +:+ s) =
  match split_from (String c sep') 0 s with
  | b :: bs => (a +:+ b) :: bs
  | [] => []
  end.
Proof.
  intros Ha. induction a as [| x a IH].
  - change (EmptyString +:+ s) with s.
    destruct (split_from (String c sep') 0 s); reflexivity.
  - change (String x a +:+ s) with (String x (a +:+ s)).
    cbn [string_forallb] in Ha. apply andb_prop in Ha as [Hx Ha].
    apply negb_true_iff in Hx.
    cbn [split_from starts_with]. rewrite Hx. cbn [andb].
    rewrite (IH Ha).
    pose proof (split_from_nonempty (String c sep') s 0) as Hne.
    destruct (split_from (String c sep') 0 s); [congruence | reflexivity].
Qed.




(** ** Turning-point parser *)

Lemma bind_ok_inv {A B : Type} (r : result A) (k : A -> result B) (b : B) :
  (a ← r; k a) = Ok b -> exists a, r = Ok a /\ k a = Ok b.
Proof. destruct r as [a | e]; simpl; [eauto | discriminate]. Qed.

Lemma getitem_ok_inv {V : Type} (d : gmap string V) (k : string) (v : V) :
  getitem d k = Ok v -> d !! k = Some v.
Proof. unfold getitem. destruct (d !! k); congruence. Qed.

Lemma getitem_lookup {V : Type} (d : gmap string V) (k : string) (v : V) :
  d !! k = Some v -> getitem d k = Ok v.
Proof. unfold getitem. intros ->. reflexivity. Qed.

Lemma getitem_missing {V : Type} (d : gmap string V) (k : string) :
  d !! k = None -> getitem d k = Raise (KeyError k).
Proof. unfold getitem. intros ->. reflexivity. Qed.

Ltac invert_binds :=
  repeat match goal with
  | H : (_ ≫= _) = Ok _ |- _ =>
      let a := fresh "a" in
      let Ha := fresh "Ha" in
      apply bind_ok_inv in H as (a & Ha & H)
  | H : getitem _ _ = Ok _ |- _ => apply getitem_ok_inv in H
  end.

Lemma re_search_in_matches (r : regex) (s : string) (m : rmatch) :
  re_search r s = Some m -> exists s', In m (matches r s').
Proof.
  induction s as [| c s IH]; simpl.
  - destruct (matches r EmptyString) as [| m' l] eqn:Hm; [discriminate |].
    intros [= <-]. exists EmptyString. rewrite Hm. left. reflexivity.
  - destruct (matches r (String c s)) as [| m' l] eqn:Hm; [exact IH |].
    intros [= <-]. exists (String c s). rewrite Hm. left. reflexivity.
Qed.

Lemma group_is_seq (P : string -> Prop) (r1 r2 : regex) :
  group_is P r2 -> group_is P (Seq r1 r2).
Proof.
  intros H2 s m Hin. cbn [matches] in Hin.
  apply in_flat_map in Hin as (m1 & _ & Hin).
  apply in_map_iff in Hin as (m2 & <- & Hin2).
  destruct (H2 _ _ Hin2) as (g & Hg & HP).
  exists g. cbn [group1]. rewrite Hg. auto.
Qed.

Lemma group_is_group (P : string -> Prop) (r : regex) :
  (forall s m, In m (matches r s) -> P (matched m)) -> group_is P (Group r).
Proof.
  intros Hr s m Hin. cbn [matches] in Hin.
  apply in_map_iff in Hin as (m' & <- & Hin).
  exists (matched m'). split; [reflexivity | eauto].
Qed.

Lemma lit_matched (l s : string) (m : rmatch) :
  In m (matches (Lit l) s) -> matched m = l.
Proof.
  cbn [matches]. destruct (starts_with l s); [| intros []].
  intros [<- | []]. reflexivity.
Qed.

Lemma plus_matched (cls : ascii -> bool) (s : string) (m : rmatch) :
  In m (plus_matches cls s) ->
  string_forallb cls (matched m) = true /\ matched m <> EmptyString.
Proof.
  revert m. induction s as [| c s IH]; intros m; cbn [plus_matches]; [intros [] |].
  destruct (cls c) eqn:Hc; [| intros []].
  intros Hin. apply in_app_or in Hin as [Hin | [<- | []]].
  - apply in_map_iff in Hin as (m' & <- & Hin').
    destruct (IH _ Hin') as [Hall _].
    cbn [matched string_forallb]. rewrite Hc, Hall. split; [reflexivity | discriminate].
  - cbn [matched string_forallb]. rewrite Hc. split; [reflexivity | discriminate].
Qed.

Lemma group_of_search (P : string -> Prop) (r : regex) (s : string) (m : rmatch) :
  group_is P r -> re_search r s = Some m -> P (group m).
Proof.
  intros Hr Hs. apply re_search_in_matches in Hs as (s' & Hin).
  destruct (Hr _ _ Hin) as (g & Hg & HP). unfold group. rewrite Hg. exact HP.
Qed.

(** The ear found in a block is [Left] or [Right]. *)
Lemma ear_group (block : string) (m : rmatch) :
  re_search ear_re block = Some m -> group m = "Left" \/ group m = "Right".
Proof.
  apply (group_of_search (fun g => g = "Left" \/ g = "Right")). unfold ear_re.
  do 2 apply group_is_seq. apply group_is_group.
  intros s m' Hin. cbn [matches] in Hin.
  apply in_app_or in Hin as [Hin | Hin]; apply lit_matched in Hin; auto.
Qed.

(** The frequency found in a block is a non-empty text of digits. *)
Lemma freq_group (block : string) (m : rmatch) :
  re_search freq_re block = Some m ->
  string_forallb is_digit (group m) = true /\ group m <> EmptyString.
Proof.
  apply (group_of_search
           (fun g => string_forallb is_digit g = true /\ g <> EmptyString)).
  unfold freq_re. do 2 apply group_is_seq. apply group_is_group.
  intros s m'. apply plus_matched.
Qed.

(** The level found in a block is a non-empty text of digits and dots. *)
Lemma turnpoint_group (block : string) (m : rmatch) :
  re_search turnpoint_re block = Some m ->
  string_forallb is_digit_or_dot (group m) = true /\ group m <> EmptyString.
Proof.
  apply (group_of_search
           (fun g => string_forallb is_digit_or_dot g = true /\ g <> EmptyString)).
  unfold turnpoint_re. do 4 apply group_is_seq. apply group_is_group.
  intros s m'. apply plus_matched.
Qed.

Lemma lstrip_spaces (s : string) :
  string_forallb is_space (lstrip s) = true -> string_forallb is_space s = true.
Proof.
  induction s as [| c s IH]; cbn [lstrip string_forallb]; [reflexivity |].
  destruct (is_space c) eqn:Hc; [exact IH |].
  cbn [string_forallb]. rewrite Hc. discriminate.
Qed.

Lemma rstrip_empty (s : string) :
  rstrip s = EmptyString -> string_forallb is_space s = true.
Proof.
  induction s as [| c s IH]; cbn [rstrip string_forallb]; [reflexivity |].
  destruct (rstrip s); [| discriminate].
  destruct (is_space c); [| discriminate].
  intros _. apply IH. reflexivity.
Qed.

Lemma strip_empty (s : string) :
  str_bool (str_strip s) = false -> string_forallb is_space s = true.
Proof.
  unfold str_strip. intros H. apply lstrip_spaces, rstrip_empty.
  destruct (rstrip (lstrip s)); [reflexivity | discriminate].
Qed.

(** A block of white space has no [Ear:] field: the test on
    [block.strip()] skips nothing the search would not skip. *)
Lemma spaces_have_no_ear (s : string) :
  string_forallb is_space s = true -> re_search ear_re s = None.
Proof.
  induction s as [| c s IH]; [reflexivity |].
  cbn [string_forallb]. intros H. apply andb_prop in H as [Hc Hs].
  cbn [re_search]. rewrite (IH Hs).
  assert (starts_with "Ear:" (String c s) = false) as Hp.
  { cbn [starts_with]. destruct (Ascii.eqb_spec "E" c) as [<- | _]; [| reflexivity].
    vm_compute in Hc. discriminate. }
  unfold ear_re. cbn [matches]. rewrite Hp. reflexivity.
Qed.

Lemma search_implies_not_blank (block : string) (m : rmatch) :
  re_search ear_re block = Some m -> str_bool (str_strip block) = true.
Proof.
  intros Hs. destruct (str_bool (str_strip block)) eqn:Hb; [reflexivity |].
  apply strip_empty, spaces_have_no_ear in Hb. congruence.
Qed.

(** A block in which one of the three patterns finds nothing leaves the
    data unchanged and raises nothing. *)
Lemma parse_block_missing_field (audiogram_data : audiogram) (block : string) :
  re_search ear_re block = None \/
  re_search freq_re block = None \/
  re_search turnpoint_re block = None ->
  parse_block audiogram_data block = Ok audiogram_data.
Proof.
  intros H. unfold parse_block.
  destruct (negb (str_bool (str_strip block))); [reflexivity |].
  destruct (re_search ear_re block); [| reflexivity].
  destruct (re_search freq_re block); [| reflexivity].
  destruct (re_search turnpoint_re block); [| reflexivity].
  destruct H as [H | [H | H]]; discriminate.
Qed.

(** A block in which the three patterns match, whose level text is a
    number and whose frequency is canonical, stores exactly one entry:
    under [ch_0] for [Left] and [ch_1] for [Right], at the slot of the
    frequency, with the frequency and the level read. *)
Lemma parse_block_complete (audiogram_data : audiogram) (block : string)
    (ear_match freq_match turnpoint_match : rmatch) (dbspl : float)
    (freq_idx : nat) (slots : channel) :
  re_search ear_re block = Some ear_match ->
  re_search freq_re block = Some freq_match ->
  re_search turnpoint_re block = Some turnpoint_match ->
  float_of_decimal (group turnpoint_match) = Ok dbspl ->
  freq_hz_to_index (int_of_digits (group freq_match)) = Some freq_idx ->
  let channel := if String.eqb (group ear_match) "Left" then "ch_0" else "ch_1" in
  audiogram_data !! channel = Some slots ->
  parse_block audiogram_data block =
  Ok (<[channel :=
         <[freq_key freq_idx :=
            {[ "freq_hz" := PyInt (int_of_digits (group freq_match));
               "dbSPL" := PyFloat dbspl ]}]> slots]> audiogram_data).
Proof.
  intros He Hf Ht Hv Hi channel Hc. unfold parse_block.
  rewrite (search_implies_not_blank _ _ He). cbn [negb].
  rewrite He, Hf, Ht, Hv. cbn [mbind result_bind]. rewrite Hi.
  fold channel. unfold getitem. rewrite Hc. reflexivity.
Qed.

(** A level text that is not a number makes the block raise. *)
Lemma parse_block_not_a_number (audiogram_data : audiogram) (block : string)
    (ear_match freq_match turnpoint_match : rmatch) :
  re_search ear_re block = Some ear_match ->
  re_search freq_re block = Some freq_match ->
  re_search turnpoint_re block = Some turnpoint_match ->
  float_of_decimal (group turnpoint_match) = Raise ValueError ->
  parse_block audiogram_data block = Raise ValueError.
Proof.
  intros He Hf Ht Hv. unfold parse_block.
  rewrite (search_implies_not_blank _ _ He). cbn [negb].
  rewrite He, Hf, Ht, Hv. reflexivity.
Qed.

(** C4, at the failing input. A block with the three fields whose level
    reads [1.2.3], or a lone dot, matches [[\d.]+] and then fails in
    [float]: the parser raises [ValueError] and the whole file ends in
    the error dialog, where a block is to be stored or skipped. The
    block [Ear: Left / Frequency (Hz): 1000 / turnpointMean = 35.0] is
    stored as channel 0, 1000 Hz, 35.0, and the same block without its
    [turnpointMean] line is skipped. *)
Theorem turnpoint_text_not_a_number_raises :
  parse_pychoacoustics_txt (block_text "Left" "1000" "1.2.3" +:+ delimiter) =
  Raise ValueError /\
  load_pychoacoustics (block_text "Left" "1000" "." +:+ delimiter) =
  ErrorDialog ValueError /\
  parse_pychoacoustics_txt (block_text "Left" "1000" "35.0" +:+ delimiter) =
  Ok {[ "audiogram" :=
        {[ "ch_0" := {[ "freq_3" := {[ "freq_hz" := PyInt 1000;
                                       "dbSPL" := f64 35 1 ]} ]};
           "ch_1" := ∅ ]} ]} /\
  parse_pychoacoustics_txt
    (delimiter +:+ newline +:+ "Ear: Left" +:+ newline +:+
     "Frequency (Hz): 1000" +:+ newline +:+ delimiter) =
  Ok {[ "audiogram" := empty_audiogram ]}.
Proof. repeat split; vm_compute; reflexivity. Qed.

(** ** Amplitude-code series *)

Lemma amplitude_to_dba_ok_inv (calib_data : calibration) (calib_key : string)
    (ampl : Z) (v : pynum) :
  amplitude_to_dba calib_data calib_key ampl = Ok v ->
  is_Some (bands calib_data !! calib_key).
Proof.
  unfold amplitude_to_dba. intros H. invert_binds. eauto.
Qed.

Lemma elbi_step_ok (elbi_data : document) (calib_data : calibration)
    (st st' : series) (idx : nat) :
  elbi_step elbi_data calib_data st idx = Ok st' ->
  exists a c0,
    elbi_data !! "audiogram" = Some a /\ a !! "ch_0" = Some c0 /\
    if contains c0 (freq_key idx) then
      exists f band db_L db_R c1,
        slot_freq idx = Some f /\ slot_band idx = Some band /\
        st' = Series (freq_list st ++ [f]) (dbL st ++ [db_L]) (dbR st ++ [db_R]) /\
        is_Some (bands calib_data !! band) /\
        a !! "ch_1" = Some c1 /\ is_Some (c1 !! freq_key idx)
    else st' = st.
Proof.
  unfold elbi_step. intros H.
  apply bind_ok_inv in H as (a & Ha & H). apply getitem_ok_inv in Ha.
  apply bind_ok_inv in H as (c0 & Hc0 & H). apply getitem_ok_inv in Hc0.
  exists a, c0. split; [exact Ha |]. split; [exact Hc0 |].
  destruct (contains c0 (freq_key idx)); [| congruence].
  apply bind_ok_inv in H as ([[khz band] f] & Hmap & H).
  unfold elbi_freq_map_getitem in Hmap.
  destruct (elbi_freq_map idx) as [t |] eqn:Ht; [| discriminate].
  injection Hmap as ->.
  apply bind_ok_inv in H as (s0 & Hs0 & H).
  apply bind_ok_inv in H as (ampl_L & HaL & H).
  apply bind_ok_inv in H as (db_L & HdL & H).
  apply bind_ok_inv in H as (c1 & Hc1 & H). apply getitem_ok_inv in Hc1.
  apply bind_ok_inv in H as (s1 & Hs1 & H). apply getitem_ok_inv in Hs1.
  apply bind_ok_inv in H as (ampl_R & HaR & H).
  apply bind_ok_inv in H as (db_R & HdR & H).
  injection H as <-.
  exists f, band, db_L, db_R, c1.
  unfold slot_freq, slot_band. rewrite Ht. cbn.
  repeat split; eauto using amplitude_to_dba_ok_inv.
Qed.

(** The loop appends, for each slot that [ch_0] holds, the slot's
    frequency and one value per ear; it needs the slot in [ch_1] and the
    slot's band in the calibration. *)
Lemma elbi_loop_ok (elbi_data : document) (calib_data : calibration)
    (a : audiogram) (c0 : channel) (idxs : list nat) (st st' : series) :
  elbi_data !! "audiogram" = Some a -> a !! "ch_0" = Some c0 ->
  for_each (elbi_step elbi_data calib_data) idxs st = Ok st' ->
  freq_list st' = freq_list st ++ elbi_present c0 idxs /\
  length (dbL st') = (length (dbL st) + length (elbi_present c0 idxs))%nat /\
  length (dbR st') = (length (dbR st) + length (elbi_present c0 idxs))%nat /\
  forall idx, In idx idxs -> contains c0 (freq_key idx) = true ->
    (exists band, slot_band idx = Some band /\
                  is_Some (bands calib_data !! band)) /\
    (exists c1, a !! "ch_1" = Some c1 /\ is_Some (c1 !! freq_key idx)).
Proof.
  intros Ha Hc0. revert st.
  induction idxs as [| idx idxs IH]; intros st H; cbn [for_each] in H.
  - injection H as <-. cbn. rewrite app_nil_r, !Nat.add_0_r.
    split; [reflexivity |]. split; [reflexivity |]. split; [reflexivity |].
    intros i [].
  - apply bind_ok_inv in H as (st1 & Hstep & H).
    apply elbi_step_ok in Hstep as (a' & c0' & Ha' & Hc0' & Hstep).
    rewrite Ha in Ha'. injection Ha' as <-.
    rewrite Hc0 in Hc0'. injection Hc0' as <-.
    destruct (IH _ H) as (Hf & HL & HR & Hneed). clear IH.
    unfold elbi_present in *. cbn [omap list_omap].
    destruct (contains c0 (freq_key idx)) eqn:Hin.
    + destruct Hstep as (f & band & db_L & db_R & c1 & Hsf & Hsb & -> & Hb & Hc1 & Hs1).
      rewrite Hsf. cbn [freq_list dbL dbR] in *.
      rewrite Hf, HL, HR, !length_app. cbn [length].
      rewrite <- app_assoc. cbn [app].
      split; [reflexivity |]. split; [lia |]. split; [lia |].
      intros i [<- | Hi] Hc; [split; eauto | apply (Hneed i Hi Hc)].
    + subst st1.
      split; [assumption |]. split; [assumption |]. split; [assumption |].
      intros i [<- | Hi] Hc; [congruence | apply (Hneed i Hi Hc)].
Qed.

Lemma elbi_series_audiogram (elbi_data : document) (calib_data : calibration)
    (st : series) :
  elbi_series elbi_data calib_data = Ok st ->
  exists a c0, elbi_data !! "audiogram" = Some a /\ a !! "ch_0" = Some c0.
Proof.
  unfold elbi_series. cbn [seq for_each]. intros H.
  apply bind_ok_inv in H as (st1 & Hstep & _).
  apply elbi_step_ok in Hstep as (a & c0 & Ha & Hc0 & _). eauto.
Qed.

Lemma plot_elbicare_ok_inv (elbi_data : document) (calib_data : calibration)
    (r : elbi_report) :
  plot_elbicare elbi_data calib_data = Ok r ->
  elbi_series elbi_data calib_data = Ok (elbi_series_of r) /\
  elbi_pta (dbL (elbi_series_of r)) (dbR (elbi_series_of r)) =
    Ok (elbi_pta_L r, elbi_pta_R r) /\
  info calib_data !! "audio_unit" = Some (audio_unit r) /\
  is_Some (info calib_data !! "headphone") /\
  is_Some (info calib_data !! "author") /\
  is_Some (info calib_data !! "tanggal").
Proof.
  unfold plot_elbicare. intros H.
  apply bind_ok_inv in H as (st & Hst & H).
  apply bind_ok_inv in H as ([pta_L pta_R] & Hpta & H).
  apply bind_ok_inv in H as (unit & Hu & H). apply getitem_ok_inv in Hu.
  apply bind_ok_inv in H as (hp & Hh & H). apply getitem_ok_inv in Hh.
  apply bind_ok_inv in H as (au & Hau & H). apply getitem_ok_inv in Hau.
  apply bind_ok_inv in H as (tg & Htg & H). apply getitem_ok_inv in Htg.
  injection H as <-. cbn. eauto 10.
Qed.

Lemma plot_without_250 :
  plot_elbicare elbi_without_250 calib_tens = Ok report_without_250.
Proof. vm_compute. reflexivity. Qed.

Lemma elbi_present_canonical (c0 : channel) (f : Z) :
  In f (elbi_present c0 (seq 0 6)) -> In f [250; 500; 1000; 2000; 4000; 8000].
Proof.
  unfold elbi_present. cbn [seq omap list_omap].
  repeat match goal with
         | |- context [contains c0 ?k] => destruct (contains c0 k)
         end;
    cbn; intuition auto.
Qed.

(** C6: slot [freq_N] stands for the N-th of 250, 500, 1000, 2000, 4000
    and 8000 Hz, six different frequencies, so [freq_3] for 2000 Hz; the
    frequency list of a report is made of the frequencies of the slots
    that [ch_0] holds, in slot order, and 125 Hz is not among them. *)
Theorem slots_map_to_canonical_frequencies (elbi_data : document)
    (calib_data : calibration) (r : elbi_report) :
  plot_elbicare elbi_data calib_data = Ok r ->
  map freq_key (seq 0 6) =
    ["freq_0"; "freq_1"; "freq_2"; "freq_3"; "freq_4"; "freq_5"] /\
  map slot_freq (seq 0 6) =
    [Some 250; Some 500; Some 1000; Some 2000; Some 4000; Some 8000] /\
  (exists a c0,
     elbi_data !! "audiogram" = Some a /\ a !! "ch_0" = Some c0 /\
     freq_list (elbi_series_of r) = elbi_present c0 (seq 0 6)) /\
  ~ In 125 (freq_list (elbi_series_of r)).
Proof.
  intros H. apply plot_elbicare_ok_inv in H as (Hs & _).
  destruct (elbi_series_audiogram _ _ _ Hs) as (a & c0 & Ha & Hc0).
  destruct (elbi_loop_ok _ _ _ _ _ _ _ Ha Hc0 Hs) as (Hf & _).
  cbn [freq_list app] in Hf.
  split; [reflexivity |]. split; [reflexivity |]. split; [eauto |].
  rewrite Hf. intros Hin. apply elbi_present_canonical in Hin.
  cbn in Hin. intuition discriminate.
Qed.

(** The mapping theorem on the document without slot [freq_0]. *)
Lemma slots_map_to_canonical_frequencies_witness :
  plot_elbicare elbi_without_250 calib_tens = Ok report_without_250 /\
  ~ In 125 (freq_list (elbi_series_of report_without_250)).
Proof.
  split; [exact plot_without_250 |].
  apply (slots_map_to_canonical_frequencies elbi_without_250 calib_tens
           report_without_250 plot_without_250).
Defined.

(** C7, at the failing input: a slot present in [ch_0] and absent from
    [ch_1] is read from [ch_1] without a test and raises
    [KeyError('freq_0')], which ends the request in the error dialog;
    the slot absent from [ch_0] is passed over, whatever [ch_1] holds. *)
Theorem absent_right_slot_raises :
  plot_elbicare elbi_left_only calib_tens = Raise (KeyError "freq_0") /\
  load_elbicare (Some calib_tens) elbi_left_only =
    ErrorDialog (KeyError "freq_0") /\
  elbi_series elbi_right_only calib_tens = Ok (Series [] [] []).
Proof. repeat split; vm_compute; reflexivity. Qed.

(** ** Calibration keys *)



(** A missing text field raises [KeyError] when the label or the title
    is built, after the series and the averages. *)
Lemma missing_audio_unit_raises (elbi_data : document)
    (calib_data : calibration) (st : series) (pta : pynum * pynum) :
  elbi_series elbi_data calib_data = Ok st ->
  elbi_pta (dbL st) (dbR st) = Ok pta ->
  info calib_data !! "audio_unit" = None ->
  load_elbicare (Some calib_data) elbi_data = ErrorDialog (KeyError "audio_unit").
Proof.
  intros Hs Hp Hu. unfold load_elbicare, plot_elbicare.
  rewrite Hs. cbn [mbind result_bind]. rewrite Hp. destruct pta as [pta_L pta_R].
  cbn [mbind result_bind]. rewrite (getitem_missing _ _ Hu). reflexivity.
Qed.



(** ** Turning-point series *)

Lemma zip_not_none_flags {A B : Type} (fs : list A) (l : list (option B)) :
  zip_not_none fs l = keep fs (flags l).
Proof.
  revert l. induction fs as [| f fs IH]; intros [| [b |] l]; cbn; try reflexivity.
  - rewrite IH. reflexivity.
  - apply IH.
Qed.

Lemma not_none_length {A B : Type} (fs : list A) (l : list (option B)) :
  length fs = length l -> length (not_none l) = length (keep fs (flags l)).
Proof.
  revert l. induction fs as [| f fs IH]; intros [| [b |] l] Hlen; cbn in *;
    try reflexivity; try discriminate.
  - f_equal. apply IH. lia.
  - apply IH. lia.
Qed.

Lemma flags_length {A : Type} (l : list (option A)) : length (flags l) = length l.
Proof. apply length_map. Qed.

Lemma pyco_step_ok (pyco_data : document)
    (L R L' R' : list (option pynum)) (i : nat) :
  pyco_step pyco_data (L, R) i = Ok (L', R') ->
  exists a c0,
    pyco_data !! "audiogram" = Some a /\ a !! "ch_0" = Some c0 /\
    flags L' = flags L ++ [contains c0 (freq_key i)] /\
    flags R' = flags R ++ [contains c0 (freq_key i)].
Proof.
  unfold pyco_step. intros H.
  apply bind_ok_inv in H as (a & Ha & H). apply getitem_ok_inv in Ha.
  apply bind_ok_inv in H as (c0 & Hc0 & H). apply getitem_ok_inv in Hc0.
  exists a, c0. split; [exact Ha |]. split; [exact Hc0 |].
  destruct (contains c0 (freq_key i)).
  - repeat (apply bind_ok_inv in H as (? & _ & H)).
    injection H as <- <-. unfold flags. rewrite !map_app. split; reflexivity.
  - injection H as <- <-. unfold flags. rewrite !map_app. split; reflexivity.
Qed.

Lemma pyco_loop_ok (pyco_data : document) (a : audiogram) (c0 : channel)
    (idxs : list nat) (L R L' R' : list (option pynum)) :
  pyco_data !! "audiogram" = Some a -> a !! "ch_0" = Some c0 ->
  for_each (pyco_step pyco_data) idxs (L, R) = Ok (L', R') ->
  flags L' = flags L ++ present_flags c0 idxs /\
  flags R' = flags R ++ present_flags c0 idxs.
Proof.
  intros Ha Hc0. revert L R.
  induction idxs as [| i idxs IH]; intros L R H; cbn [for_each] in H.
  - injection H as <- <-. cbn. rewrite !app_nil_r. split; reflexivity.
  - apply bind_ok_inv in H as ([L1 R1] & Hstep & H).
    apply pyco_step_ok in Hstep as (a' & c0' & Ha' & Hc0' & HL & HR).
    rewrite Ha in Ha'. injection Ha' as <-.
    rewrite Hc0 in Hc0'. injection Hc0' as <-.
    destruct (IH _ _ H) as [HL' HR'].
    rewrite HL', HR', HL, HR, <- !app_assoc. split; reflexivity.
Qed.

Lemma keep_present_flags (c0 : channel) :
  keep canonical_frequencies (present_flags c0 (seq 0 7)) =
  pyco_present c0 (seq 0 7).
Proof.
  unfold pyco_present, present_flags. cbn [seq map omap list_omap].
  repeat match goal with
         | |- context [contains c0 ?k] => destruct (contains c0 k)
         end;
    reflexivity.
Qed.

Lemma plot_pychoacoustics_ok_inv (pyco_data : document) (r : pyco_report) :
  plot_pychoacoustics pyco_data = Ok r ->
  exists a c0,
    pyco_data !! "audiogram" = Some a /\ a !! "ch_0" = Some c0 /\
    valid_freq r = pyco_present c0 (seq 0 7) /\
    length (valid_dbhl_L r) = length (valid_freq r) /\
    length (valid_dbhl_R r) = length (valid_freq r).
Proof.
  unfold plot_pychoacoustics. intros H.
  apply bind_ok_inv in H as ([L R] & Hloop & H).
  apply bind_ok_inv in H as ([pta_L pta_R] & _ & H).
  assert (r = PycoReport (zip_not_none canonical_frequencies L) (not_none L)
                         (not_none R) pta_L pta_R) as ->
    by (injection H as <-; reflexivity).
  clear H.
  change (valid_freq _) with (zip_not_none canonical_frequencies L).
  change (valid_dbhl_L _) with (not_none L).
  change (valid_dbhl_R _) with (not_none R).
  assert (exists a c0, pyco_data !! "audiogram" = Some a /\ a !! "ch_0" = Some c0)
    as (a & c0 & Ha & Hc0).
  { cbn [seq for_each] in Hloop.
    apply bind_ok_inv in Hloop as ([L1 R1] & Hstep & _).
    apply pyco_step_ok in Hstep as (a & c0 & Ha & Hc0 & _). eauto. }
  destruct (pyco_loop_ok _ _ _ _ _ _ _ _ Ha Hc0 Hloop) as [HL HR].
  cbn [flags map app] in HL, HR.
  assert (length L = 7%nat) as HlenL.
  { rewrite <- flags_length, HL. reflexivity. }
  assert (length R = 7%nat) as HlenR.
  { rewrite <- flags_length, HR. reflexivity. }
  exists a, c0. split; [exact Ha |]. split; [exact Hc0 |].
  rewrite zip_not_none_flags, HL. split; [apply keep_present_flags |].
  rewrite <- HL at 1. rewrite <- HR.
  split; apply not_none_length; [rewrite HlenL | rewrite HlenR]; reflexivity.
Qed.

(** ** Which slots reach the series *)

Section Present.

Variable g : nat -> option Z.
Variable c0 : channel.
Variable idxs : list nat.

Hypothesis g_injective :
  forall i j f, In i idxs -> In j idxs -> g i = Some f -> g j = Some f -> i = j.

Lemma present_iff (idx : nat) (f : Z) :
  In idx idxs -> g idx = Some f ->
  In f (omap (fun i => if contains c0 (freq_key i) then g i else None) idxs) <->
  contains c0 (freq_key idx) = true.
Proof.
  intros Hidx Hg. rewrite <- list_elem_of_In, list_elem_of_omap. split.
  - intros (i & Hi & Hf). apply list_elem_of_In in Hi.
    destruct (contains c0 (freq_key i)) eqn:Hc; [| discriminate].
    rewrite <- (g_injective i idx f Hi Hidx Hf Hg). exact Hc.
  - intros Hc. exists idx. rewrite Hc. split; [apply list_elem_of_In, Hidx | exact Hg].
Qed.

End Present.

Lemma slot_freq_injective (i j : nat) (f : Z) :
  In i (seq 0 6) -> In j (seq 0 6) ->
  slot_freq i = Some f -> slot_freq j = Some f -> i = j.
Proof.
  cbn [seq In]. intros Hi Hj.
  decompose [or] Hi; decompose [or] Hj; subst; try contradiction;
    cbn; intros Hfi Hfj; congruence.
Qed.

Lemma canonical_injective (i j : nat) (f : Z) :
  In i (seq 0 7) -> In j (seq 0 7) ->
  nth_error canonical_frequencies i = Some f ->
  nth_error canonical_frequencies j = Some f -> i = j.
Proof.
  cbn [seq In]. intros Hi Hj.
  decompose [or] Hi; decompose [or] Hj; subst; try contradiction;
    cbn; intros Hfi Hfj; congruence.
Qed.

(** C10: when a request ends in a report, the report holds a frequency
    exactly when [ch_0], the left ear, holds its slot, and each ear's
    series has one value per frequency held: a slot that only [ch_1]
    holds appears in neither series. The amplitude-code format has slots
    0 to 5 for 250 to 8000 Hz, the turning-point format slots 0 to 6 for
    125 to 8000 Hz. *)
Theorem series_follow_left_channel :
  (forall (elbi_data : document) (calib_data : calibration) (r : elbi_report),
     plot_elbicare elbi_data calib_data = Ok r ->
     exists a c0,
       elbi_data !! "audiogram" = Some a /\ a !! "ch_0" = Some c0 /\
       freq_list (elbi_series_of r) = elbi_present c0 (seq 0 6) /\
       (forall idx f, In idx (seq 0 6) -> slot_freq idx = Some f ->
          In f (freq_list (elbi_series_of r)) <->
          contains c0 (freq_key idx) = true) /\
       length (dbL (elbi_series_of r)) = length (freq_list (elbi_series_of r)) /\
       length (dbR (elbi_series_of r)) = length (freq_list (elbi_series_of r))) /\
  (forall (pyco_data : document) (r : pyco_report),
     plot_pychoacoustics pyco_data = Ok r ->
     exists a c0,
       pyco_data !! "audiogram" = Some a /\ a !! "ch_0" = Some c0 /\
       valid_freq r = pyco_present c0 (seq 0 7) /\
       (forall idx f, In idx (seq 0 7) ->
          nth_error canonical_frequencies idx = Some f ->
          In f (valid_freq r) <-> contains c0 (freq_key idx) = true) /\
       length (valid_dbhl_L r) = length (valid_freq r) /\
       length (valid_dbhl_R r) = length (valid_freq r)).
Proof.
  split.
  - intros elbi_data calib_data r H.
    apply plot_elbicare_ok_inv in H as (Hs & _).
    destruct (elbi_series_audiogram _ _ _ Hs) as (a & c0 & Ha & Hc0).
    destruct (elbi_loop_ok _ _ _ _ _ _ _ Ha Hc0 Hs) as (Hf & HL & HR & _).
    cbn [freq_list dbL dbR app length Nat.add] in Hf, HL, HR.
    exists a, c0. rewrite Hf, HL, HR.
    split; [exact Ha |]. split; [exact Hc0 |]. split; [reflexivity |].
    split; [| split; reflexivity].
    intros idx f Hidx Hsf.
    apply (present_iff slot_freq c0 (seq 0 6) slot_freq_injective idx f Hidx Hsf).
  - intros pyco_data r H.
    apply plot_pychoacoustics_ok_inv in H as (a & c0 & Ha & Hc0 & Hf & HL & HR).
    exists a, c0. rewrite HL, HR, Hf.
    split; [exact Ha |]. split; [exact Hc0 |]. split; [reflexivity |].
    split; [| split; reflexivity].
    intros idx f Hidx Hnth.
    apply (present_iff (nth_error canonical_frequencies) c0 (seq 0 7)
             canonical_injective idx f Hidx Hnth).
Qed.

(** A slot that only the right ear holds is left out without an error,
    in either format; a slot that only the left ear holds raises
    [KeyError] when the right ear is read. *)
Lemma right_only_is_omitted :
  (d ← parse_pychoacoustics_txt pyco_right_only;
   r ← plot_pychoacoustics d;
   Ok (valid_freq r, valid_dbhl_L r, valid_dbhl_R r)) = Ok ([], [], []) /\
  (r ← plot_elbicare elbi_right_only calib_tens;
   Ok (elbi_series_of r)) = Ok (Series [] [] []) /\
  load_pychoacoustics pyco_left_only = ErrorDialog (KeyError "freq_3").
Proof. repeat split; vm_compute; reflexivity. Qed.

Lemma plot_without_125 :
  plot_pychoacoustics data_without_125 = Ok pyco_report_without_125.
Proof. vm_compute. reflexivity. Qed.

(** The series theorem on one report of each format. *)
Lemma series_follow_left_channel_witness :
  plot_elbicare elbi_without_250 calib_tens = Ok report_without_250 /\
  plot_pychoacoustics data_without_125 = Ok pyco_report_without_125 /\
  length (dbR (elbi_series_of report_without_250)) =
    length (freq_list (elbi_series_of report_without_250)) /\
  length (valid_dbhl_R pyco_report_without_125) =
    length (valid_freq pyco_report_without_125).
Proof.
  split; [exact plot_without_250 |]. split; [exact plot_without_125 |].
  destruct series_follow_left_channel as [Helbi Hpyco].
  destruct (Helbi _ _ _ plot_without_250) as (a & c0 & _ & _ & _ & _ & _ & HR).
  destruct (Hpyco _ _ plot_without_125) as (a' & c0' & _ & _ & _ & _ & _ & HR').
  split; [exact HR | exact HR'].
Defined.

(** * Further properties of the code *)

(** ** The frequency tables *)

Lemma freq_hz_to_index_canonical (f : Z) (i : nat) :
  freq_hz_to_index f = Some i -> nth_error canonical_frequencies i = Some f.
Proof.
  unfold freq_hz_to_index.
  repeat match goal with
         | |- context [match ?x with _ => _ end] => destruct x; try discriminate
         end;
    intros [= <-]; reflexivity.
Qed.

Lemma canonical_freq_hz_to_index (f : Z) (i : nat) :
  nth_error canonical_frequencies i = Some f -> freq_hz_to_index f = Some i.
Proof.
  do 7 (destruct i as [| i]; [intros [= <-]; reflexivity |]).
  destruct i; discriminate.
Qed.

Lemma retspl_of_canonical (f : Z) :
  In f canonical_frequencies -> exists r, RETSPL_getitem (PyInt f) = Ok r.
Proof.
  cbn [canonical_frequencies In]. intros H.
  decompose [or] H; subst; try contradiction; eexists; vm_compute; reflexivity.
Qed.

Lemma retspl_only_canonical (f : Z) (r : float) :
  RETSPL_getitem (PyInt f) = Ok r -> In f canonical_frequencies.
Proof.
  unfold RETSPL_getitem, RETSPL. cbn [find fst py_eqb canonical_frequencies In].
  repeat match goal with
         | |- context [?k =? f] => destruct (Z.eqb_spec k f); [subst; tauto |]
         end.
  discriminate.
Qed.

(** X1: the three hard-coded frequency tables agree: the parser keeps a
    frequency exactly when it is one of the seven the plot lists, the
    slot index it gives is the frequency's place in that list, and the
    RETSPL table has a value exactly for these frequencies. *)
Theorem frequency_tables_agree (f : Z) :
  (forall i, freq_hz_to_index f = Some i <->
             nth_error canonical_frequencies i = Some f) /\
  (is_Some (freq_hz_to_index f) <-> In f canonical_frequencies) /\
  (In f canonical_frequencies <-> exists r, RETSPL_getitem (PyInt f) = Ok r).
Proof.
  split; [| split].
  - intros i. split; [apply freq_hz_to_index_canonical | apply canonical_freq_hz_to_index].
  - split.
    + intros [i Hi]. apply freq_hz_to_index_canonical in Hi.
      eapply nth_error_In, Hi.
    + intros Hin. apply In_nth_error in Hin as [i Hi].
      exists i. apply canonical_freq_hz_to_index, Hi.
  - split; [apply retspl_of_canonical |].
    intros [r Hr]. eapply retspl_only_canonical, Hr.
Qed.

(** ** The parser, block by block *)

(** What a block does, from its three fields. *)
Lemma parse_block_fields (audiogram_data : audiogram) (block : string) :
  parse_block audiogram_data block =
  match block_fields block with
  | None => Ok audiogram_data
  | Some (channel, frequency, text) =>
      dbspl ← float_of_decimal text;
      match freq_hz_to_index frequency with
      | Some freq_idx =>
          slots ← getitem audiogram_data channel;
          Ok (<[channel := <[freq_key freq_idx := entry_of frequency dbspl]> slots]>
                audiogram_data)
      | None => Ok audiogram_data
      end
  end.
Proof.
  unfold parse_block, block_fields.
  destruct (re_search ear_re block) as [ear_match |] eqn:He.
  - rewrite (search_implies_not_blank _ _ He). cbn [negb].
    destruct (re_search freq_re block); [| reflexivity].
    destruct (re_search turnpoint_re block); reflexivity.
  - destruct (negb _); reflexivity.
Qed.

Lemma block_fields_channel (block channel text : string) (frequency : Z) :
  block_fields block = Some (channel, frequency, text) ->
  channel = "ch_0" \/ channel = "ch_1".
Proof.
  unfold block_fields.
  destruct (re_search ear_re block); [| discriminate].
  destruct (re_search freq_re block); [| discriminate].
  destruct (re_search turnpoint_re block); [| discriminate].
  intros [= <- _ _]. destruct (String.eqb _ _); auto.
Qed.


Lemma parse_block_ok_inv (audiogram_data audiogram_data' : audiogram)
    (block : string) :
  parse_block audiogram_data block = Ok audiogram_data' ->
  audiogram_data' = audiogram_data \/
  exists channel slots i f x,
    (channel = "ch_0" \/ channel = "ch_1") /\
    audiogram_data !! channel = Some slots /\
    nth_error canonical_frequencies i = Some f /\
    audiogram_data' =
      <[channel := <[freq_key i := entry_of f x]> slots]> audiogram_data.
Proof.
  rewrite parse_block_fields.
  destruct (block_fields block) as [[[channel frequency] text] |] eqn:Hb;
    [| intros [= <-]; auto].
  intros H. apply bind_ok_inv in H as (x & _ & H).
  destruct (freq_hz_to_index frequency) as [i |] eqn:Hi; [| injection H as <-; auto].
  apply bind_ok_inv in H as (slots & Hs & H). apply getitem_ok_inv in Hs.
  injection H as <-. right. exists channel, slots, i, frequency, x.
  split; [eapply block_fields_channel, Hb |]. split; [exact Hs |].
  split; [apply freq_hz_to_index_canonical, Hi | reflexivity].
Qed.







(** X2: a block either leaves the data as it is or stores one entry, in
    the slot of a canonical frequency of [ch_0] or [ch_1]; all other
    slots and the other channel keep what they held. *)
Theorem parse_block_changes_one_slot (audiogram_data audiogram_data' : audiogram)
    (block : string) :
  parse_block audiogram_data block = Ok audiogram_data' ->
  audiogram_data' = audiogram_data \/
  exists channel slots i f x,
    (channel = "ch_0" \/ channel = "ch_1") /\
    audiogram_data !! channel = Some slots /\
    nth_error canonical_frequencies i = Some f /\
    audiogram_data' =
      <[channel := <[freq_key i := entry_of f x]> slots]> audiogram_data /\
    forall ch k,
      (ch, k) <> (channel, freq_key i) ->
      (audiogram_data' !! ch ≫= fun c => c !! k) =
      (audiogram_data !! ch ≫= fun c => c !! k).
Proof.
  intros H.
  apply parse_block_ok_inv in H
    as [-> | (channel & slots & i & f & x & Hc & Hs & Hf & ->)]; [auto |].
  right. exists channel, slots, i, f, x.
  split; [exact Hc |]. split; [exact Hs |]. split; [exact Hf |].
  split; [reflexivity |].
  intros ch k Hne. destruct (decide (ch = channel)) as [-> | Hch].
  - rewrite lookup_insert_eq, Hs. cbn.
    apply lookup_insert_ne. congruence.
  - rewrite lookup_insert_ne by congruence. reflexivity.
Qed.

(** The slot theorem on the left ear at 1000 Hz. *)
Lemma parse_block_changes_one_slot_witness :
  parse_block empty_audiogram (measurement_text "Left" "1000" "35.0") =
    Ok data_left_1000 /\
  (data_left_1000 = empty_audiogram \/
   exists channel slots i f x,
     (channel = "ch_0" \/ channel = "ch_1") /\
     empty_audiogram !! channel = Some slots /\
     nth_error canonical_frequencies i = Some f /\
     data_left_1000 =
       <[channel := <[freq_key i := entry_of f x]> slots]> empty_audiogram /\
     forall ch k,
       (ch, k) <> (channel, freq_key i) ->
       (data_left_1000 !! ch ≫= fun c => c !! k) =
       (empty_audiogram !! ch ≫= fun c => c !! k)).
Proof.
  assert (parse_block empty_audiogram (measurement_text "Left" "1000" "35.0") =
          Ok data_left_1000) as H.
  { rewrite parse_block_fields.
    assert (block_fields (measurement_text "Left" "1000" "35.0") =
            Some ("ch_0", 1000, "35.0")) as -> by (vm_compute; reflexivity).
    assert (float_of_decimal "35.0" = Ok (Float64.of_ratio 35 1)) as ->
      by (vm_compute; reflexivity).
    cbn [mbind result_bind freq_hz_to_index].
    rewrite (getitem_lookup empty_audiogram "ch_0" ∅ (lookup_insert_eq _ _ _)).
    reflexivity. }
  split; [exact H |].
  apply (parse_block_changes_one_slot empty_audiogram data_left_1000 _ H).
Defined.


(** X4: of two blocks for the same ear and frequency, the later one
    decides: parsing both leaves what parsing the second alone leaves,
    once the level of the first is a number and the data has the
    channel. *)
Theorem later_block_replaces_earlier (audiogram_data : audiogram)
    (block1 block2 channel text1 text2 : string) (frequency : Z) (dbspl1 : float) :
  block_fields block1 = Some (channel, frequency, text1) ->
  block_fields block2 = Some (channel, frequency, text2) ->
  float_of_decimal text1 = Ok dbspl1 ->
  is_Some (audiogram_data !! channel) ->
  (audiogram_data' ← parse_block audiogram_data block1;
   parse_block audiogram_data' block2) =
  parse_block audiogram_data block2.
Proof.
  intros H1 H2 Hx [slots Hs].
  rewrite (parse_block_fields audiogram_data block1), H1, Hx.
  cbn [mbind result_bind].
  destruct (freq_hz_to_index frequency) as [i |] eqn:Hi; [| reflexivity].
  rewrite (getitem_lookup _ _ _ Hs). cbn [mbind result_bind].
  rewrite !parse_block_fields, H2.
  destruct (float_of_decimal text2) as [x2 |]; [| reflexivity].
  cbn [mbind result_bind]. rewrite Hi.
  rewrite (getitem_lookup _ _ _ (lookup_insert_eq _ _ _)).
  rewrite (getitem_lookup _ _ _ Hs). cbn [mbind result_bind].
  rewrite !insert_insert_eq. reflexivity.
Qed.

(** The replacement theorem on two levels of the left ear at 1000 Hz. *)
Lemma later_block_replaces_earlier_witness :
  block_fields (measurement_text "Left" "1000" "35.0") = Some ("ch_0", 1000, "35.0") /\
  block_fields (measurement_text "Left" "1000" "40.5") = Some ("ch_0", 1000, "40.5") /\
  float_of_decimal "35.0" = Ok (Float64.of_ratio 35 1) /\
  is_Some (empty_audiogram !! "ch_0") /\
  (audiogram_data' ← parse_block empty_audiogram (measurement_text "Left" "1000" "35.0");
   parse_block audiogram_data' (measurement_text "Left" "1000" "40.5")) =
  parse_block empty_audiogram (measurement_text "Left" "1000" "40.5").
Proof.
  assert (block_fields (measurement_text "Left" "1000" "35.0") =
          Some ("ch_0", 1000, "35.0")) as H1 by (vm_compute; reflexivity).
  assert (block_fields (measurement_text "Left" "1000" "40.5") =
          Some ("ch_0", 1000, "40.5")) as H2 by (vm_compute; reflexivity).
  assert (float_of_decimal "35.0" = Ok (Float64.of_ratio 35 1)) as Hx
    by (vm_compute; reflexivity).
  assert (is_Some (empty_audiogram !! "ch_0")) as Hc by (vm_compute; eauto).
  split; [exact H1 |]. split; [exact H2 |]. split; [exact Hx |]. split; [exact Hc |].
  apply (later_block_replaces_earlier empty_audiogram _ _ _ _ _ _ _ H1 H2 Hx Hc).
Defined.

(** ** Splitting and joining *)

Lemma starts_with_drop (p s : string) :
  starts_with p s = true -> p +:+ string_drop (String.length p) s = s.
Proof.
  revert s. induction p as [| a p IH]; intros s H; [reflexivity |].
  destruct s as [| b s]; [discriminate |]. cbn [starts_with] in H.
  apply andb_prop in H as [Hab Hp]. apply Ascii.eqb_eq in Hab as ->.
  change (String b p +:+ string_drop (String.length (String b p)) (String b s))
    with (String b (p +:+ string_drop (String.length p) s)).
  rewrite (IH _ Hp). reflexivity.
Qed.

Lemma str_join_cons (sep : string) (c : ascii) (b : string) (bs : list string) :
  str_join sep (String c b :: bs) = String c (str_join sep (b :: bs)).
Proof. destruct bs; reflexivity. Qed.

Lemma join_split_from (sep : string) (a : ascii) (s : string) (skip : nat) :
  str_join (String a sep) (split_from (String a sep) skip s) = string_drop skip s.
Proof.
  revert skip. induction s as [| c s IH]; intros skip.
  - destruct skip; reflexivity.
  - destruct skip as [| k]; cbn [split_from string_drop]; [| apply IH].
    destruct (starts_with (String a sep) (String c s)) eqn:Hp.
    + pose proof (split_from_nonempty (String a sep) s
                    (String.length (String a sep) - 1)) as Hne.
      specialize (IH (String.length (String a sep) - 1)%nat).
      destruct (split_from (String a sep) (String.length (String a sep) - 1) s)
        as [| b bs]; [congruence |].
      change (str_join (String a sep) (EmptyString :: b :: bs))
        with (String a sep +:+ str_join (String a sep) (b :: bs)).
      rewrite IH. apply starts_with_drop in Hp.
      cbn [String.length] in *. rewrite Nat.sub_1_r. cbn [Nat.pred].
      exact Hp.
    + pose proof (split_from_nonempty (String a sep) s 0) as Hne.
      specialize (IH 0%nat).
      destruct (split_from (String a sep) 0 s) as [| b bs]; [congruence |].
      rewrite str_join_cons, IH. reflexivity.
Qed.

(** X5: splitting loses nothing but the delimiters: the blocks of a
    text, joined by the delimiter, give the text back. *)
Theorem join_of_split_is_content (content : string) :
  str_join delimiter (str_split delimiter content) = content.
Proof.
  unfold str_split. change delimiter with (String "*" (asterisks 54)).
  rewrite join_split_from. reflexivity.
Qed.

(** X6: a text without any asterisk is one block: the parser reads it
    as a single measurement at most. *)
Theorem text_without_delimiter_is_one_block (content : string) :
  no_asterisk content = true ->
  str_split delimiter content = [content] /\
  parse_pychoacoustics_txt content =
  (audiogram_data ← parse_block empty_audiogram content;
   Ok {[ "audiogram" := audiogram_data ]}).
Proof.
  intros H.
  assert (str_split delimiter content = [content]) as Hs.
  { unfold str_split. change delimiter with (String "*" (asterisks 54)).
    rewrite <- (string_app_empty_r content) at 1.
    rewrite (split_from_before "*" (asterisks 54) content EmptyString H).
    cbn [split_from]. rewrite string_app_empty_r. reflexivity. }
  split; [exact Hs |].
  unfold parse_pychoacoustics_txt. rewrite Hs. cbn [parse_blocks].
  change ({[ "ch_0" := ∅; "ch_1" := ∅ ]} : audiogram) with empty_audiogram.
  destruct (parse_block empty_audiogram content); reflexivity.
Qed.

(** The one-block theorem on a single measurement. *)
Lemma text_without_delimiter_is_one_block_witness :
  no_asterisk (measurement_text "Left" "1000" "35.0") = true /\
  str_split delimiter (measurement_text "Left" "1000" "35.0") =
    [measurement_text "Left" "1000" "35.0"].
Proof.
  assert (no_asterisk (measurement_text "Left" "1000" "35.0") = true) as H
    by (vm_compute; reflexivity).
  split; [exact H |].
  apply (text_without_delimiter_is_one_block _ H).
Defined.

(** ** The calibration lookup, case by case *)

(** X7: with the band in the calibration, the conversion gives 0 for a
    code at or beyond the array's length [n], raises [IndexError] for a
    code below [-n], and for a code from [-n] to [n - 1] gives the array's
    value at the code modulo [n], as Python's indexing from the end
    does. *)
Theorem amplitude_to_dba_cases (calib_data : calibration) (calib_key : string)
    (table : list pynum) (code : Z) :
  bands calib_data !! calib_key = Some table ->
  let n := Z.of_nat (length table) in
  (n <= code -> amplitude_to_dba calib_data calib_key code = Ok (PyInt 0)) /\
  (code < - n -> amplitude_to_dba calib_data calib_key code = Raise IndexError) /\
  (- n <= code < n ->
   exists v, nth_error table (Z.to_nat (code mod n)) = Some v /\
             amplitude_to_dba calib_data calib_key code = Ok v).
Proof.
  intros Hband n. unfold amplitude_to_dba.
  rewrite (getitem_lookup _ _ _ Hband). cbn [mbind result_bind]. fold n.
  split; [| split].
  - intros H. destruct (Z.ltb_spec code n); [lia | reflexivity].
  - intros H. destruct (Z.ltb_spec code n); [| lia].
    unfold list_index. fold n.
    destruct (Z.ltb_spec code 0); [| lia].
    destruct (Z.ltb_spec (code + n) 0); [reflexivity | lia].
  - intros H. destruct (Z.ltb_spec code n); [| lia].
    unfold list_index. fold n.
    assert ((if code <? 0 then code + n else code) = code mod n) as ->.
    { destruct (Z.ltb_spec code 0).
      - apply (Z.mod_unique_pos _ _ (-1)); lia.
      - symmetry. apply Z.mod_small. lia. }
    assert (0 <= code mod n < n) as Hm by (apply Z.mod_pos_bound; lia).
    destruct (Z.ltb_spec (code mod n) 0); [lia |].
    destruct (Z.leb_spec n (code mod n)); [lia |]. cbn [orb].
    destruct (nth_error table (Z.to_nat (code mod n))) as [v |] eqn:Hv; [eauto |].
    apply nth_error_None in Hv. lia.
Qed.

(** The case theorem on the array [10, 20, 30] at code -1. *)
Lemma amplitude_to_dba_cases_witness :
  bands calib_example !! "1000Hz" = Some [PyInt 10; PyInt 20; PyInt 30] /\
  - 3 <= -1 < 3 /\
  exists v, nth_error [PyInt 10; PyInt 20; PyInt 30] (Z.to_nat (-1 mod 3)) = Some v /\
            amplitude_to_dba calib_example "1000Hz" (-1) = Ok v.
Proof.
  assert (bands calib_example !! "1000Hz" = Some [PyInt 10; PyInt 20; PyInt 30])
    as H by (vm_compute; reflexivity).
  split; [exact H |]. split; [lia |].
  apply (amplitude_to_dba_cases calib_example "1000Hz" _ (-1) H). cbn. lia.
Defined.

(** ** The amplitude-code series, slot by slot *)

Lemma slot_value_ok_inv (calib_data : calibration) (ch : channel) (i : nat)
    (v : pynum) :
  slot_value calib_data ch i = Ok v ->
  exists s ampl khz band f,
    getitem ch (freq_key i) = Ok s /\
    (x ← getitem s "ampl"; py_int x) = Ok ampl /\
    elbi_freq_map_getitem i = Ok (khz, band, f) /\
    amplitude_to_dba calib_data band ampl = Ok v.
Proof.
  unfold slot_value. intros H.
  apply bind_ok_inv in H as (s & Hs & H).
  apply bind_ok_inv in H as (ampl & Hampl & H).
  apply bind_ok_inv in H as ([[khz band] f] & Hm & H).
  exists s, ampl, khz, band, f. auto.
Qed.

Lemma elbi_step_absent (elbi_data : document) (calib_data : calibration)
    (a : audiogram) (c0 : channel) (st : series) (i : nat) :
  elbi_data !! "audiogram" = Some a -> a !! "ch_0" = Some c0 ->
  contains c0 (freq_key i) = false ->
  elbi_step elbi_data calib_data st i = Ok st.
Proof.
  intros Ha Hc0 Hc. unfold elbi_step.
  rewrite (getitem_lookup _ _ _ Ha). cbn [mbind result_bind].
  rewrite (getitem_lookup _ _ _ Hc0). cbn [mbind result_bind].
  rewrite Hc. reflexivity.
Qed.

Lemma elbi_step_present (elbi_data : document) (calib_data : calibration)
    (a : audiogram) (c0 c1 : channel) (st : series) (i : nat) (v_L v_R : pynum) :
  elbi_data !! "audiogram" = Some a -> a !! "ch_0" = Some c0 ->
  a !! "ch_1" = Some c1 ->
  contains c0 (freq_key i) = true ->
  slot_value calib_data c0 i = Ok v_L ->
  slot_value calib_data c1 i = Ok v_R ->
  exists f, slot_freq i = Some f /\
    elbi_step elbi_data calib_data st i =
    Ok (Series (freq_list st ++ [f]) (dbL st ++ [v_L]) (dbR st ++ [v_R])).
Proof.
  intros Ha Hc0 Hc1 Hc HL HR.
  apply slot_value_ok_inv in HL as (s0 & ampl_L & khz & band & f & Hs0 & HaL & Hm & HvL).
  apply slot_value_ok_inv in HR as (s1 & ampl_R & khz' & band' & f' & Hs1 & HaR & Hm' & HvR).
  rewrite Hm in Hm'. injection Hm' as <- <- <-.
  exists f. split.
  { unfold slot_freq. unfold elbi_freq_map_getitem in Hm.
    destruct (elbi_freq_map i); [| discriminate]. injection Hm as ->. reflexivity. }
  unfold elbi_step.
  rewrite (getitem_lookup _ _ _ Ha). cbn [mbind result_bind].
  rewrite (getitem_lookup _ _ _ Hc0). cbn [mbind result_bind].
  rewrite Hc, Hm. cbn [mbind result_bind].
  rewrite Hs0. cbn [mbind result_bind].
  rewrite HaL. cbn [mbind result_bind].
  rewrite HvL. cbn [mbind result_bind].
  rewrite (getitem_lookup _ _ _ Hc1). cbn [mbind result_bind].
  rewrite Hs1. cbn [mbind result_bind].
  rewrite HaR. cbn [mbind result_bind].
  rewrite HvR. reflexivity.
Qed.

Lemma elbi_step_present_inv (elbi_data : document) (calib_data : calibration)
    (a : audiogram) (c0 : channel) (st st' : series) (i : nat) :
  elbi_data !! "audiogram" = Some a -> a !! "ch_0" = Some c0 ->
  contains c0 (freq_key i) = true ->
  elbi_step elbi_data calib_data st i = Ok st' ->
  exists f v_L v_R c1,
    slot_freq i = Some f /\ a !! "ch_1" = Some c1 /\
    slot_value calib_data c0 i = Ok v_L /\
    slot_value calib_data c1 i = Ok v_R /\
    st' = Series (freq_list st ++ [f]) (dbL st ++ [v_L]) (dbR st ++ [v_R]).
Proof.
  intros Ha Hc0 Hc. unfold elbi_step.
  rewrite (getitem_lookup _ _ _ Ha). cbn [mbind result_bind].
  rewrite (getitem_lookup _ _ _ Hc0). cbn [mbind result_bind].
  rewrite Hc. intros H.
  apply bind_ok_inv in H as ([[khz band] f] & Hm & H).
  apply bind_ok_inv in H as (s0 & Hs0 & H).
  apply bind_ok_inv in H as (ampl_L & HaL & H).
  apply bind_ok_inv in H as (v_L & HvL & H).
  apply bind_ok_inv in H as (c1 & Hc1 & H).
  apply bind_ok_inv in H as (s1 & Hs1 & H).
  apply bind_ok_inv in H as (ampl_R & HaR & H).
  apply bind_ok_inv in H as (v_R & HvR & H).
  injection H as <-.
  exists f, v_L, v_R, c1.
  split.
  { unfold slot_freq. unfold elbi_freq_map_getitem in Hm.
    destruct (elbi_freq_map i); [| discriminate]. injection Hm as ->. reflexivity. }
  split; [apply getitem_ok_inv, Hc1 |].
  unfold slot_value.
  rewrite Hs0. cbn [mbind result_bind]. rewrite HaL. cbn [mbind result_bind].
  rewrite Hs1. cbn [mbind result_bind]. rewrite HaR. cbn [mbind result_bind].
  rewrite Hm. cbn [mbind result_bind]. auto.
Qed.

Lemma elbi_loop_values (elbi_data : document) (calib_data : calibration)
    (a : audiogram) (c0 : channel) (idxs : list nat) (st st' : series) :
  elbi_data !! "audiogram" = Some a -> a !! "ch_0" = Some c0 ->
  for_each (elbi_step elbi_data calib_data) idxs st = Ok st' ->
  exists fs vs_L vs_R,
    st' = Series (freq_list st ++ fs) (dbL st ++ vs_L) (dbR st ++ vs_R) /\
    Forall2 (fun i f => slot_freq i = Some f) (present_slots c0 idxs) fs /\
    Forall2 (fun i v => slot_value calib_data c0 i = Ok v)
            (present_slots c0 idxs) vs_L /\
    Forall2 (fun i v => exists c1, a !! "ch_1" = Some c1 /\
                                   slot_value calib_data c1 i = Ok v)
            (present_slots c0 idxs) vs_R.
Proof.
  intros Ha Hc0. revert st.
  induction idxs as [| i idxs IH]; intros st H; cbn [for_each] in H.
  - injection H as <-. exists [], [], []. rewrite !app_nil_r.
    destruct st. repeat split; constructor.
  - apply bind_ok_inv in H as (st1 & Hstep & H).
    destruct (IH _ H) as (fs & vs_L & vs_R & -> & Hfs & HL & HR). clear IH.
    unfold present_slots in *. rewrite filter_cons.
    destruct (contains c0 (freq_key i)) eqn:Hc.
    + destruct (elbi_step_present_inv _ _ _ _ _ _ _ Ha Hc0 Hc Hstep)
        as (f & v_L & v_R & c1 & Hf & Hc1 & HvL & HvR & ->).
      cbn [freq_list dbL dbR]. rewrite <- !app_assoc. cbn [app].
      exists (f :: fs), (v_L :: vs_L), (v_R :: vs_R).
      rewrite decide_True by reflexivity.
      repeat split; try constructor; eauto.
    + rewrite (elbi_step_absent _ _ _ _ _ _ Ha Hc0 Hc) in Hstep.
      injection Hstep as <-.
      exists fs, vs_L, vs_R. rewrite decide_False by discriminate.
      repeat split; assumption.
Qed.

Lemma elbi_loop_succeeds (elbi_data : document) (calib_data : calibration)
    (a : audiogram) (c0 : channel) (idxs : list nat) (st : series) :
  elbi_data !! "audiogram" = Some a -> a !! "ch_0" = Some c0 ->
  (forall i, In i idxs -> contains c0 (freq_key i) = true ->
     (exists v, slot_value calib_data c0 i = Ok v) /\
     (exists c1 v, a !! "ch_1" = Some c1 /\ slot_value calib_data c1 i = Ok v)) ->
  exists st', for_each (elbi_step elbi_data calib_data) idxs st = Ok st'.
Proof.
  intros Ha Hc0. revert st.
  induction idxs as [| i idxs IH]; intros st Hall; cbn [for_each]; [eauto |].
  destruct (contains c0 (freq_key i)) eqn:Hc.
  - destruct (Hall i (or_introl eq_refl) Hc) as ((v_L & HL) & (c1 & v_R & Hc1 & HR)).
    destruct (elbi_step_present _ _ _ _ _ st _ _ _ Ha Hc0 Hc1 Hc HL HR) as (f & _ & ->).
    cbn [mbind result_bind]. apply IH. intros j Hj. apply Hall. right. exact Hj.
  - rewrite (elbi_step_absent _ _ _ _ _ _ Ha Hc0 Hc). cbn [mbind result_bind].
    apply IH. intros j Hj. apply Hall. right. exact Hj.
Qed.

Lemma Forall2_in_l {A B : Type} (P : A -> B -> Prop) (l : list A) (l' : list B)
    (x : A) :
  Forall2 P l l' -> In x l -> exists y, P x y.
Proof.
  induction 1 as [| a b l l' Hab _ IH]; intros Hin; [destruct Hin |].
  destruct Hin as [<- | Hin]; eauto.
Qed.

Lemma in_present_slots (c0 : channel) (idxs : list nat) (i : nat) :
  In i (present_slots c0 idxs) <-> In i idxs /\ contains c0 (freq_key i) = true.
Proof.
  unfold present_slots. rewrite <- !list_elem_of_In, list_elem_of_filter. tauto.
Qed.

(** X8: the series of a report are aligned: the k-th frequency, the
    k-th left value and the k-th right value all come from the k-th slot
    that [ch_0] holds, as that slot's frequency and as the converted
    codes the slot has in [ch_0] and in [ch_1]. *)
Theorem elbi_series_are_aligned (elbi_data : document) (calib_data : calibration)
    (st : series) :
  elbi_series elbi_data calib_data = Ok st ->
  exists a c0,
    elbi_data !! "audiogram" = Some a /\ a !! "ch_0" = Some c0 /\
    Forall2 (fun i f => slot_freq i = Some f)
            (present_slots c0 (seq 0 6)) (freq_list st) /\
    Forall2 (fun i v => slot_value calib_data c0 i = Ok v)
            (present_slots c0 (seq 0 6)) (dbL st) /\
    Forall2 (fun i v => exists c1, a !! "ch_1" = Some c1 /\
                                   slot_value calib_data c1 i = Ok v)
            (present_slots c0 (seq 0 6)) (dbR st).
Proof.
  intros H. destruct (elbi_series_audiogram _ _ _ H) as (a & c0 & Ha & Hc0).
  exists a, c0. split; [exact Ha |]. split; [exact Hc0 |].
  destruct (elbi_loop_values _ _ _ _ _ _ _ Ha Hc0 H)
    as (fs & vs_L & vs_R & -> & Hfs & HL & HR).
  cbn. auto.
Qed.

(** The alignment theorem on the document without slot [freq_0]. *)
Lemma elbi_series_are_aligned_witness :
  elbi_series elbi_without_250 calib_tens = Ok (elbi_series_of report_without_250) /\
  exists a c0,
    elbi_without_250 !! "audiogram" = Some a /\ a !! "ch_0" = Some c0 /\
    Forall2 (fun i f => slot_freq i = Some f)
            (present_slots c0 (seq 0 6))
            (freq_list (elbi_series_of report_without_250)) /\
    Forall2 (fun i v => slot_value calib_tens c0 i = Ok v)
            (present_slots c0 (seq 0 6))
            (dbL (elbi_series_of report_without_250)) /\
    Forall2 (fun i v => exists c1, a !! "ch_1" = Some c1 /\
                                   slot_value calib_tens c1 i = Ok v)
            (present_slots c0 (seq 0 6))
            (dbR (elbi_series_of report_without_250)).
Proof.
  assert (elbi_series elbi_without_250 calib_tens =
          Ok (elbi_series_of report_without_250)) as H by (vm_compute; reflexivity).
  split; [exact H |].
  apply (elbi_series_are_aligned elbi_without_250 calib_tens _ H).
Defined.

(** X9: the series can be built exactly when every slot that [ch_0]
    holds can be converted in both channels: the slot is in [ch_1] too,
    has a code in each, and the code is accepted by the calibration
    lookup of the slot's band. Slots that [ch_0] lacks are never
    read. *)
Theorem elbi_series_succeeds_iff (elbi_data : document) (calib_data : calibration)
    (a : audiogram) (c0 : channel) :
  elbi_data !! "audiogram" = Some a -> a !! "ch_0" = Some c0 ->
  (exists st, elbi_series elbi_data calib_data = Ok st) <->
  (forall i, In i (seq 0 6) -> contains c0 (freq_key i) = true ->
     (exists v, slot_value calib_data c0 i = Ok v) /\
     (exists c1 v, a !! "ch_1" = Some c1 /\ slot_value calib_data c1 i = Ok v)).
Proof.
  intros Ha Hc0. split.
  - intros [st H] i Hi Hc.
    destruct (elbi_loop_values _ _ _ _ _ _ _ Ha Hc0 H)
      as (fs & vs_L & vs_R & _ & _ & HL & HR).
    assert (In i (present_slots c0 (seq 0 6))) as Hin
      by (apply in_present_slots; auto).
    destruct (Forall2_in_l _ _ _ _ HL Hin) as [v Hv].
    destruct (Forall2_in_l _ _ _ _ HR Hin) as (v' & c1 & Hc1 & Hv').
    eauto 6.
  - intros Hall. apply (elbi_loop_succeeds _ _ _ _ _ _ Ha Hc0 Hall).
Qed.

(** The criterion on the document without slot [freq_0]. *)
Lemma elbi_series_succeeds_iff_witness :
  elbi_without_250 !! "audiogram" = Some audiogram_without_250 /\
  audiogram_without_250 !! "ch_0" = Some channel_without_250 /\
  ((exists st, elbi_series elbi_without_250 calib_tens = Ok st) <->
   (forall i, In i (seq 0 6) -> contains channel_without_250 (freq_key i) = true ->
      (exists v, slot_value calib_tens channel_without_250 i = Ok v) /\
      (exists c1 v, audiogram_without_250 !! "ch_1" = Some c1 /\
                    slot_value calib_tens c1 i = Ok v))).
Proof.
  assert (elbi_without_250 !! "audiogram" = Some audiogram_without_250) as Ha
    by (apply lookup_singleton_eq).
  assert (audiogram_without_250 !! "ch_0" = Some channel_without_250) as Hc0
    by (apply lookup_insert_eq).
  split; [exact Ha |]. split; [exact Hc0 |].
  apply (elbi_series_succeeds_iff elbi_without_250 calib_tens _ _ Ha Hc0).
Defined.

(** ** The turning-point series, slot by slot *)

Lemma pyco_step_absent (pyco_data : document) (a : audiogram) (c0 : channel)
    (L R : list (option pynum)) (i : nat) :
  pyco_data !! "audiogram" = Some a -> a !! "ch_0" = Some c0 ->
  contains c0 (freq_key i) = false ->
  pyco_step pyco_data (L, R) i = Ok (L ++ [None], R ++ [None]).
Proof.
  intros Ha Hc0 Hc. unfold pyco_step.
  rewrite (getitem_lookup _ _ _ Ha). cbn [mbind result_bind].
  rewrite (getitem_lookup _ _ _ Hc0). cbn [mbind result_bind].
  rewrite Hc. reflexivity.
Qed.



Lemma pyco_step_present_inv (pyco_data : document) (a : audiogram) (c0 : channel)
    (L R L' R' : list (option pynum)) (i : nat) :
  pyco_data !! "audiogram" = Some a -> a !! "ch_0" = Some c0 ->
  contains c0 (freq_key i) = true ->
  pyco_step pyco_data (L, R) i = Ok (L', R') ->
  exists v_L v_R c1,
    a !! "ch_1" = Some c1 /\
    hl_value c0 c0 i = Ok v_L /\ hl_value c0 c1 i = Ok v_R /\
    L' = L ++ [Some v_L] /\ R' = R ++ [Some v_R].
Proof.
  intros Ha Hc0 Hc. unfold pyco_step.
  rewrite (getitem_lookup _ _ _ Ha). cbn [mbind result_bind].
  rewrite (getitem_lookup _ _ _ Hc0). cbn [mbind result_bind].
  rewrite Hc. intros H.
  apply bind_ok_inv in H as (e0 & He0 & H).
  apply bind_ok_inv in H as (f & Hf & H).
  apply bind_ok_inv in H as (x_L & HxL & H).
  apply bind_ok_inv in H as (v_L & HvL & H).
  apply bind_ok_inv in H as (c1 & Hc1 & H).
  apply bind_ok_inv in H as (e1 & He1 & H).
  apply bind_ok_inv in H as (x_R & HxR & H).
  apply bind_ok_inv in H as (v_R & HvR & H).
  injection H as <- <-.
  exists v_L, v_R, c1. split; [apply getitem_ok_inv, Hc1 |].
  unfold hl_value.
  rewrite He0. cbn [mbind result_bind]. rewrite Hf. cbn [mbind result_bind].
  rewrite He1. cbn [mbind result_bind]. rewrite HxL, HxR.
  cbn [mbind result_bind]. auto.
Qed.

Lemma pyco_loop_values (pyco_data : document) (a : audiogram) (c0 : channel)
    (idxs : list nat) (L R L' R' : list (option pynum)) :
  pyco_data !! "audiogram" = Some a -> a !! "ch_0" = Some c0 ->
  for_each (pyco_step pyco_data) idxs (L, R) = Ok (L', R') ->
  exists vs_L vs_R,
    not_none L' = not_none L ++ vs_L /\ not_none R' = not_none R ++ vs_R /\
    Forall2 (fun i v => hl_value c0 c0 i = Ok v) (present_slots c0 idxs) vs_L /\
    Forall2 (fun i v => exists c1, a !! "ch_1" = Some c1 /\
                                   hl_value c0 c1 i = Ok v)
            (present_slots c0 idxs) vs_R.
Proof.
  intros Ha Hc0. revert L R.
  induction idxs as [| i idxs IH]; intros L R H; cbn [for_each] in H.
  - injection H as <- <-. exists [], []. rewrite !app_nil_r.
    repeat split; constructor.
  - apply bind_ok_inv in H as ([L1 R1] & Hstep & H).
    destruct (IH _ _ H) as (vs_L & vs_R & HL' & HR' & HL & HR). clear IH.
    unfold present_slots in *. rewrite filter_cons.
    destruct (contains c0 (freq_key i)) eqn:Hc.
    + destruct (pyco_step_present_inv _ _ _ _ _ _ _ _ Ha Hc0 Hc Hstep)
        as (v_L & v_R & c1 & Hc1 & HvL & HvR & -> & ->).
      unfold not_none in *. rewrite omap_app in HL', HR'. cbn in HL', HR'.
      rewrite <- app_assoc in HL', HR'. cbn [app] in HL', HR'.
      exists (v_L :: vs_L), (v_R :: vs_R).
      rewrite decide_True by reflexivity.
      repeat split; try constructor; eauto.
    + rewrite (pyco_step_absent _ _ _ _ _ _ Ha Hc0 Hc) in Hstep.
      injection Hstep as <- <-.
      unfold not_none in *. rewrite omap_app in HL', HR'. cbn in HL', HR'.
      rewrite app_nil_r in HL', HR'.
      exists vs_L, vs_R. rewrite decide_False by discriminate.
      repeat split; assumption.
Qed.


(** ** The averages never fail on levels that are floats *)

Lemma float_of_int_small (n : Z) :
  0 <= n <= 7 -> exists y, float_of_int n = Ok y.
Proof.
  intros H.
  assert (n = 0 \/ n = 1 \/ n = 2 \/ n = 3 \/ n = 4 \/ n = 5 \/ n = 6 \/ n = 7)
    as Hn by lia.
  decompose [or] Hn; subst; eexists; vm_compute; reflexivity.
Qed.

Lemma py_add_float_or_zero (a b : pynum) :
  float_or_zero a -> float_or_zero b ->
  exists c, py_add a b = Ok c /\ float_or_zero c.
Proof.
  intros [[x ->] | ->] [[y ->] | ->]; cbn.
  - eexists. split; [reflexivity | left; eexists; reflexivity].
  - eexists. split; [reflexivity | left; eexists; reflexivity].
  - eexists. split; [reflexivity | left; eexists; reflexivity].
  - eexists. split; [reflexivity | right; reflexivity].
Qed.

Lemma py_truediv_float_or_zero (a : pynum) (n : Z) :
  float_or_zero a -> 1 <= n <= 7 ->
  exists q, py_truediv a (PyInt n) = Ok q.
Proof.
  intros Ha Hn. destruct (float_of_int_small n) as [y Hy]; [lia |].
  destruct (Z.eqb_spec n 0) as [-> | Hne]; [lia |].
  destruct Ha as [[x ->] | ->]; unfold py_truediv.
  - cbn [to_float mbind result_bind py_is_zero]. rewrite Hy.
    cbn [mbind result_bind].
    destruct (Z.eqb_spec n 0); [lia | eauto].
  - destruct (Z.eqb_spec n 0); [lia |].
    assert (Float64.of_ratio 0 n = S754_zero (n <? 0)) as ->
      by (destruct n; [lia | reflexivity | reflexivity]).
    cbn. eauto.
Qed.

Lemma sum_from_float_or_zero (l : list pynum) (acc : pynum) :
  float_or_zero acc -> Forall float_or_zero l ->
  exists s, sum_from acc l = Ok s /\ float_or_zero s.
Proof.
  intros Hacc Hl. revert acc Hacc.
  induction Hl as [| x l Hx _ IH]; intros acc Hacc; cbn [sum_from]; [eauto |].
  destruct (py_add_float_or_zero _ _ Hacc Hx) as (c & -> & Hc).
  cbn [mbind result_bind]. apply IH, Hc.
Qed.

Lemma mean_or_zero_float_or_zero (l : list pynum) :
  Forall float_or_zero l -> (length l <= 7)%nat ->
  exists v, mean_or_zero l = Ok v.
Proof.
  intros Hl Hlen. destruct l as [| x l]; [cbn; eauto |].
  unfold mean_or_zero, py_sum.
  destruct (sum_from_float_or_zero (x :: l) (PyInt 0)) as (s & -> & Hs);
    [right; reflexivity | exact Hl |].
  cbn [mbind result_bind]. apply py_truediv_float_or_zero; [exact Hs |].
  cbn [length] in *. lia.
Qed.

Lemma list_index_float_or_zero (l : list pynum) (i : Z) :
  Forall float_or_zero l -> 0 <= i < Z.of_nat (length l) ->
  exists v, list_index l i = Ok v /\ float_or_zero v.
Proof.
  intros Hl Hi. rewrite list_index_in_range by exact Hi.
  destruct (nth_error l (Z.to_nat i)) as [v |] eqn:Hv.
  - exists v. split; [reflexivity |].
    rewrite Forall_forall in Hl. apply Hl. apply list_elem_of_In.
    eapply nth_error_In, Hv.
  - apply nth_error_None in Hv. lia.
Qed.

Lemma mean4_at_float_or_zero (l : list pynum) (i : Z) :
  Forall float_or_zero l -> 0 <= i -> i + 3 < Z.of_nat (length l) ->
  exists v, mean4_at l i = Ok v.
Proof.
  intros Hl Hi Hlen. unfold mean4_at.
  destruct (list_index_float_or_zero l i Hl) as (a & -> & Ha); [lia |].
  cbn [mbind result_bind].
  destruct (list_index_float_or_zero l (i + 1) Hl) as (b & -> & Hb); [lia |].
  cbn [mbind result_bind].
  destruct (py_add_float_or_zero _ _ Ha Hb) as (ab & -> & Hab).
  cbn [mbind result_bind].
  destruct (list_index_float_or_zero l (i + 2) Hl) as (c & -> & Hc); [lia |].
  cbn [mbind result_bind].
  destruct (py_add_float_or_zero _ _ Hab Hc) as (abc & -> & Habc).
  cbn [mbind result_bind].
  destruct (list_index_float_or_zero l (i + 3) Hl) as (d & -> & Hd); [lia |].
  cbn [mbind result_bind].
  destruct (py_add_float_or_zero _ _ Habc Hd) as (abcd & -> & Habcd).
  cbn [mbind result_bind].
  apply py_truediv_float_or_zero; [exact Habcd | lia].
Qed.


Lemma elbi_pta_total (dbL dbR : list pynum) :
  Forall float_or_zero dbL -> Forall float_or_zero dbR ->
  (length dbL <= 7)%nat -> (length dbR <= 7)%nat ->
  exists pta, elbi_pta dbL dbR = Ok pta.
Proof.
  intros HL HR HmaxL HmaxR. unfold elbi_pta.
  destruct (Nat.leb_spec 5 (length dbL)); destruct (Nat.leb_spec 5 (length dbR));
    cbn [andb].
  - destruct (mean4_at_float_or_zero _ 1 HL) as [pta_L ->]; [lia | lia |].
    destruct (mean4_at_float_or_zero _ 1 HR) as [pta_R ->]; [lia | lia |].
    cbn. eauto.
  - destruct (mean_or_zero_float_or_zero _ HL HmaxL) as [pta_L ->].
    destruct (mean_or_zero_float_or_zero _ HR HmaxR) as [pta_R ->]. cbn. eauto.
  - destruct (mean_or_zero_float_or_zero _ HL HmaxL) as [pta_L ->].
    destruct (mean_or_zero_float_or_zero _ HR HmaxR) as [pta_R ->]. cbn. eauto.
  - destruct (mean_or_zero_float_or_zero _ HL HmaxL) as [pta_L ->].
    destruct (mean_or_zero_float_or_zero _ HR HmaxR) as [pta_R ->]. cbn. eauto.
Qed.

(** ** Plotting what the parser read *)









(** ** The turning-point report, slot by slot *)

Lemma pyco_present_slots (c0 : channel) (idxs : list nat) :
  Forall (fun i => is_Some (nth_error canonical_frequencies i)) idxs ->
  Forall2 (fun i f => nth_error canonical_frequencies i = Some f)
          (present_slots c0 idxs) (pyco_present c0 idxs).
Proof.
  induction 1 as [| i idxs [f Hf] _ IH]; [constructor |].
  unfold present_slots, pyco_present in *. rewrite filter_cons.
  cbn [omap list_omap].
  destruct (contains c0 (freq_key i)) eqn:Hc.
  - rewrite decide_True by reflexivity. rewrite Hf. constructor; assumption.
  - rewrite decide_False by discriminate. exact IH.
Qed.

Lemma plot_pychoacoustics_values (pyco_data : document) (r : pyco_report)
    (a : audiogram) (c0 : channel) :
  pyco_data !! "audiogram" = Some a -> a !! "ch_0" = Some c0 ->
  plot_pychoacoustics pyco_data = Ok r ->
  Forall2 (fun i v => hl_value c0 c0 i = Ok v)
          (present_slots c0 (seq 0 7)) (valid_dbhl_L r) /\
  Forall2 (fun i v => exists c1, a !! "ch_1" = Some c1 /\
                                 hl_value c0 c1 i = Ok v)
          (present_slots c0 (seq 0 7)) (valid_dbhl_R r).
Proof.
  intros Ha Hc0 H.
  unfold plot_pychoacoustics in H.
  apply bind_ok_inv in H as ([L R] & Hloop & H).
  apply bind_ok_inv in H as ([pta_L pta_R] & _ & H).
  assert (valid_dbhl_L r = not_none L /\ valid_dbhl_R r = not_none R) as [-> ->]
    by (injection H as <-; split; reflexivity).
  destruct (pyco_loop_values _ _ _ _ _ _ _ _ Ha Hc0 Hloop)
    as (vs_L & vs_R & -> & -> & HL & HR).
  split; [exact HL | exact HR].
Qed.

(** X10: the series of a turning-point report are aligned: the k-th
    frequency, the k-th left value and the k-th right value all come from
    the k-th slot that [ch_0] holds. The frequency is the slot's place in
    the canonical grid; each value is the slot's level in that ear, less
    the RETSPL of the frequency recorded in the slot of [ch_0]. *)
Theorem pyco_series_are_aligned (pyco_data : document) (r : pyco_report) :
  plot_pychoacoustics pyco_data = Ok r ->
  exists a c0,
    pyco_data !! "audiogram" = Some a /\ a !! "ch_0" = Some c0 /\
    Forall2 (fun i f => nth_error canonical_frequencies i = Some f)
            (present_slots c0 (seq 0 7)) (valid_freq r) /\
    Forall2 (fun i v => hl_value c0 c0 i = Ok v)
            (present_slots c0 (seq 0 7)) (valid_dbhl_L r) /\
    Forall2 (fun i v => exists c1, a !! "ch_1" = Some c1 /\
                                   hl_value c0 c1 i = Ok v)
            (present_slots c0 (seq 0 7)) (valid_dbhl_R r).
Proof.
  intros H.
  destruct (plot_pychoacoustics_ok_inv _ _ H) as (a & c0 & Ha & Hc0 & Hf & _).
  exists a, c0. split; [exact Ha |]. split; [exact Hc0 |]. split.
  - rewrite Hf. apply pyco_present_slots.
    cbn [seq]. repeat constructor; vm_compute; eauto.
  - apply (plot_pychoacoustics_values _ _ _ _ Ha Hc0 H).
Qed.

(** The alignment theorem on the text without 125 Hz. *)
Lemma pyco_series_are_aligned_witness :
  plot_pychoacoustics data_without_125 = Ok pyco_report_without_125 /\
  exists a c0,
    data_without_125 !! "audiogram" = Some a /\ a !! "ch_0" = Some c0 /\
    Forall2 (fun i f => nth_error canonical_frequencies i = Some f)
            (present_slots c0 (seq 0 7)) (valid_freq pyco_report_without_125) /\
    Forall2 (fun i v => hl_value c0 c0 i = Ok v)
            (present_slots c0 (seq 0 7)) (valid_dbhl_L pyco_report_without_125) /\
    Forall2 (fun i v => exists c1, a !! "ch_1" = Some c1 /\
                                   hl_value c0 c1 i = Ok v)
            (present_slots c0 (seq 0 7)) (valid_dbhl_R pyco_report_without_125).
Proof.
  split; [exact plot_without_125 |].
  apply (pyco_series_are_aligned data_without_125 pyco_report_without_125
           plot_without_125).
Defined.

(** ** Every outcome of a turning-point file *)


(** ** A calibration of floats *)

Lemma Forall2_forall_r {A B : Type} (P : A -> B -> Prop) (Q : B -> Prop)
    (l : list A) (l' : list B) :
  Forall2 P l l' -> (forall x y, P x y -> Q y) -> Forall Q l'.
Proof. induction 1; intros HPQ; constructor; eauto. Qed.

Lemma list_index_ok_in {A : Type} (l : list A) (i : Z) (a : A) :
  list_index l i = Ok a -> In a l.
Proof.
  unfold list_index. destruct (_ || _); [discriminate |].
  destruct (nth_error l _) as [a' |] eqn:Hn; [| discriminate].
  intros [= <-]. eapply nth_error_In, Hn.
Qed.

Lemma amplitude_to_dba_float_or_zero (calib_data : calibration)
    (calib_key : string) (ampl : Z) (v : pynum) :
  float_calibration calib_data ->
  amplitude_to_dba calib_data calib_key ampl = Ok v -> float_or_zero v.
Proof.
  intros Hcal H. unfold amplitude_to_dba in H.
  apply bind_ok_inv in H as (table & Ht & H). apply getitem_ok_inv in Ht.
  destruct (ampl <? Z.of_nat (length table)).
  - rewrite (getitem_lookup _ _ _ Ht) in H. cbn [mbind result_bind] in H.
    apply list_index_ok_in in H. specialize (Hcal _ _ Ht).
    rewrite Forall_forall in Hcal. apply Hcal, list_elem_of_In, H.
  - injection H as <-. right. reflexivity.
Qed.

Lemma slot_value_float_or_zero (calib_data : calibration) (ch : channel)
    (i : nat) (v : pynum) :
  float_calibration calib_data ->
  slot_value calib_data ch i = Ok v -> float_or_zero v.
Proof.
  intros Hcal H.
  apply slot_value_ok_inv in H as (s & ampl & khz & band & f & _ & _ & _ & H).
  eapply amplitude_to_dba_float_or_zero; eauto.
Qed.

Lemma elbi_series_float_or_zero (elbi_data : document) (calib_data : calibration)
    (st : series) :
  float_calibration calib_data ->
  elbi_series elbi_data calib_data = Ok st ->
  Forall float_or_zero (dbL st) /\ Forall float_or_zero (dbR st) /\
  (length (dbL st) <= 7)%nat /\ (length (dbR st) <= 7)%nat.
Proof.
  intros Hcal H.
  destruct (elbi_series_audiogram _ _ _ H) as (a & c0 & Ha & Hc0).
  destruct (elbi_loop_values _ _ _ _ _ _ _ Ha Hc0 H)
    as (fs & vs_L & vs_R & -> & _ & HL & HR).
  cbn [dbL dbR app].
  assert (length (present_slots c0 (seq 0 6)) <= 7)%nat as Hlen.
  { unfold present_slots. etransitivity; [apply length_filter |]. cbn. lia. }
  split; [| split; [| split]].
  - apply (Forall2_forall_r _ _ _ _ HL). intros i v Hv.
    eapply slot_value_float_or_zero; eauto.
  - apply (Forall2_forall_r _ _ _ _ HR). intros i v (c1 & _ & Hv).
    eapply slot_value_float_or_zero; eauto.
  - rewrite <- (Forall2_length _ _ _ HL). exact Hlen.
  - rewrite <- (Forall2_length _ _ _ HR). exact Hlen.
Qed.

(** X12: with a calibration whose arrays hold floats, nothing fails
    after the series are built but the reading of the text fields: the
    averages are always computed, and the request gives a report exactly
    when the calibration has the four fields [audio_unit], [headphone],
    [author] and [tanggal]. *)
Theorem float_calibration_gives_report (elbi_data : document)
    (calib_data : calibration) (st : series) :
  float_calibration calib_data ->
  elbi_series elbi_data calib_data = Ok st ->
  (exists pta, elbi_pta (dbL st) (dbR st) = Ok pta) /\
  (Forall (fun k => is_Some (info calib_data !! k)) text_fields <->
   exists r, plot_elbicare elbi_data calib_data = Ok r).
Proof.
  intros Hcal Hs.
  destruct (elbi_series_float_or_zero _ _ _ Hcal Hs) as (HL & HR & HlenL & HlenR).
  destruct (elbi_pta_total _ _ HL HR HlenL HlenR) as [[pta_L pta_R] Hpta].
  split; [eauto |]. split.
  - intros Hinfo. unfold text_fields in Hinfo.
    apply Forall_cons_1 in Hinfo as [[u Hu] Hinfo].
    apply Forall_cons_1 in Hinfo as [[h Hh] Hinfo].
    apply Forall_cons_1 in Hinfo as [[au Hau] Hinfo].
    apply Forall_cons_1 in Hinfo as [[t Ht] _].
    unfold plot_elbicare. rewrite Hs. cbn [mbind result_bind].
    rewrite Hpta. cbn [mbind result_bind].
    rewrite (getitem_lookup _ _ _ Hu), (getitem_lookup _ _ _ Hh),
      (getitem_lookup _ _ _ Hau), (getitem_lookup _ _ _ Ht).
    cbn [mbind result_bind]. eauto.
  - intros [r Hr].
    apply plot_elbicare_ok_inv in Hr as (_ & _ & Hu & Hh & Hau & Ht).
    unfold text_fields. repeat constructor; eauto.
Qed.

(** The report theorem on one slot and a calibration of floats. *)
Lemma float_calibration_gives_report_witness :
  float_calibration calib_floats /\
  elbi_series elbi_1000_only calib_floats =
    Ok (Series [1000] [f64 5 1] [PyInt 0]) /\
  exists pta, elbi_pta [f64 5 1] [PyInt 0] = Ok pta.
Proof.
  assert (float_calibration calib_floats) as Hcal.
  { intros band table H. cbn [calib_floats bands] in H.
    apply lookup_singleton_Some in H as [_ <-].
    repeat (constructor; [left; eexists; reflexivity |]). constructor. }
  assert (elbi_series elbi_1000_only calib_floats =
          Ok (Series [1000] [f64 5 1] [PyInt 0])) as Hs by (vm_compute; reflexivity).
  split; [exact Hcal |]. split; [exact Hs |].
  apply (float_calibration_gives_report elbi_1000_only calib_floats _ Hcal Hs).
Defined.

(** ** The frequencies of a report *)

Lemma keep_strongly_sorted {A : Type} (R : A -> A -> Prop) (fs : list A)
    (bs : list bool) :
  StronglySorted R fs -> StronglySorted R (keep fs bs).
Proof.
  intros H. revert bs. induction H as [| f fs Hs IH Hf]; intros bs.
  - destruct bs as [| [] bs]; constructor.
  - destruct bs as [| [] bs]; cbn [keep]; [constructor | | apply IH].
    constructor; [apply IH |].
    clear IH Hs. revert bs. induction fs as [| g fs IHfs]; intros bs.
    + destruct bs as [| [] bs]; constructor.
    + apply Forall_cons_1 in Hf as [Hg Hf].
      destruct bs as [| [] bs]; cbn [keep]; [constructor | | apply IHfs, Hf].
      constructor; [exact Hg | apply IHfs, Hf].
Qed.

Lemma keep_elbi_flags (c0 : channel) :
  keep [250; 500; 1000; 2000; 4000; 8000] (present_flags c0 (seq 0 6)) =
  elbi_present c0 (seq 0 6).
Proof.
  unfold elbi_present, present_flags. cbn [seq map omap list_omap].
  repeat match goal with
         | |- context [contains c0 ?k] => destruct (contains c0 k)
         end;
    reflexivity.
Qed.

(** X13: the frequencies of a report, of either format, are strictly
    increasing: no frequency stands twice, and the frequency axis of the
    plot is drawn from left to right. *)
Theorem report_frequencies_increase :
  (forall (elbi_data : document) (calib_data : calibration) (r : elbi_report),
     plot_elbicare elbi_data calib_data = Ok r ->
     StronglySorted Z.lt (freq_list (elbi_series_of r))) /\
  (forall (pyco_data : document) (r : pyco_report),
     plot_pychoacoustics pyco_data = Ok r ->
     StronglySorted Z.lt (valid_freq r)).
Proof.
  split.
  - intros elbi_data calib_data r H.
    apply plot_elbicare_ok_inv in H as (Hs & _).
    destruct (elbi_series_audiogram _ _ _ Hs) as (a & c0 & Ha & Hc0).
    destruct (elbi_loop_ok _ _ _ _ _ _ _ Ha Hc0 Hs) as (Hf & _).
    cbn [freq_list app] in Hf. rewrite Hf, <- keep_elbi_flags.
    apply keep_strongly_sorted. repeat constructor.
  - intros pyco_data r H.
    apply plot_pychoacoustics_ok_inv in H as (a & c0 & _ & _ & Hf & _).
    rewrite Hf, <- keep_present_flags.
    apply keep_strongly_sorted. unfold canonical_frequencies. repeat constructor.
Qed.

(** The ordering theorem on one report of each format. *)
Lemma report_frequencies_increase_witness :
  plot_elbicare elbi_without_250 calib_tens = Ok report_without_250 /\
  plot_pychoacoustics data_without_125 = Ok pyco_report_without_125 /\
  StronglySorted Z.lt (freq_list (elbi_series_of report_without_250)) /\
  StronglySorted Z.lt (valid_freq pyco_report_without_125).
Proof.
  split; [exact plot_without_250 |]. split; [exact plot_without_125 |].
  destruct report_frequencies_increase as [Helbi Hpyco].
  split; [exact (Helbi _ _ _ plot_without_250) | exact (Hpyco _ _ plot_without_125)].
Defined.

(** ** Which files the parser refuses *)




(** A level that is not a number, at 3000 Hz, ends the request. *)
Lemma bad_level_at_other_frequency :
  freq_hz_to_index 3000 = None /\
  load_pychoacoustics pyco_bad_level = ErrorDialog ValueError.
Proof. split; vm_compute; reflexivity. Qed.

(** ** The average when every frequency was measured *)

Lemma present_slots_all (c0 : channel) (idxs : list nat) :
  (forall i, In i idxs -> contains c0 (freq_key i) = true) ->
  present_slots c0 idxs = idxs.
Proof.
  induction idxs as [| i idxs IH]; intros H; [reflexivity |].
  unfold present_slots in *. rewrite filter_cons.
  rewrite decide_True by (apply H; left; reflexivity).
  f_equal. apply IH. intros j Hj. apply H. right. exact Hj.
Qed.

Ltac forall2_head H y Hy :=
  let k := fresh "k" in
  apply Forall2_cons_inv_l in H as (y & k & Hy & H & ->).

Lemma plot_pychoacoustics_pta (pyco_data : document) (r : pyco_report) :
  plot_pychoacoustics pyco_data = Ok r ->
  pyco_pta (valid_dbhl_L r) (valid_dbhl_R r) = Ok (pyco_pta_L r, pyco_pta_R r).
Proof.
  unfold plot_pychoacoustics. intros H.
  apply bind_ok_inv in H as ([L R] & _ & H).
  apply bind_ok_inv in H as ([pta_L pta_R] & Hpta & H).
  injection H as <-. exact Hpta.
Qed.

(** X15: when the left ear of an amplitude-code document holds the six
    slots, the report lists 250 to 8000 Hz and each ear's average is the
    mean of the ear's levels at slots 1 to 4, which are 500, 1000, 2000
    and 4000 Hz. *)
Theorem elbi_full_average (elbi_data : document) (calib_data : calibration)
    (r : elbi_report) (a : audiogram) (c0 c1 : channel) :
  plot_elbicare elbi_data calib_data = Ok r ->
  elbi_data !! "audiogram" = Some a ->
  a !! "ch_0" = Some c0 -> a !! "ch_1" = Some c1 ->
  (forall i, In i (seq 0 6) -> contains c0 (freq_key i) = true) ->
  freq_list (elbi_series_of r) = [250; 500; 1000; 2000; 4000; 8000] /\
  (exists v1 v2 v3 v4,
     slot_value calib_data c0 1 = Ok v1 /\ slot_value calib_data c0 2 = Ok v2 /\
     slot_value calib_data c0 3 = Ok v3 /\ slot_value calib_data c0 4 = Ok v4 /\
     mean4 v1 v2 v3 v4 = Ok (elbi_pta_L r)) /\
  (exists v1 v2 v3 v4,
     slot_value calib_data c1 1 = Ok v1 /\ slot_value calib_data c1 2 = Ok v2 /\
     slot_value calib_data c1 3 = Ok v3 /\ slot_value calib_data c1 4 = Ok v4 /\
     mean4 v1 v2 v3 v4 = Ok (elbi_pta_R r)).
Proof.
  intros H Ha Hc0 Hc1 Hall.
  apply plot_elbicare_ok_inv in H as (Hs & Hpta & _).
  destruct (elbi_loop_values _ _ _ _ _ _ _ Ha Hc0 Hs)
    as (fs & vs_L & vs_R & Hst & Hfs & HL & HR).
  rewrite Hst in Hpta |- *. clear Hst Hs.
  cbn [freq_list dbL dbR app] in *.
  rewrite (present_slots_all _ _ Hall) in Hfs, HL, HR. cbn [seq] in Hfs, HL, HR.
  forall2_head Hfs f0 Hf0. forall2_head Hfs f1 Hf1. forall2_head Hfs f2 Hf2.
  forall2_head Hfs f3 Hf3. forall2_head Hfs f4 Hf4. forall2_head Hfs f5 Hf5.
  apply Forall2_nil_inv_l in Hfs as ->.
  forall2_head HL v0 Hv0. forall2_head HL v1 Hv1. forall2_head HL v2 Hv2.
  forall2_head HL v3 Hv3. forall2_head HL v4 Hv4. forall2_head HL v5 Hv5.
  apply Forall2_nil_inv_l in HL as ->.
  forall2_head HR w0 Hw0. forall2_head HR w1 Hw1. forall2_head HR w2 Hw2.
  forall2_head HR w3 Hw3. forall2_head HR w4 Hw4. forall2_head HR w5 Hw5.
  apply Forall2_nil_inv_l in HR as ->.
  rewrite elbi_pta_full in Hpta.
  apply bind_ok_inv in Hpta as (pta_L & HpL & Hpta).
  apply bind_ok_inv in Hpta as (pta_R & HpR & Hpta).
  injection Hpta as <- <-.
  split; [| split].
  - cbn in Hf0, Hf1, Hf2, Hf3, Hf4, Hf5. congruence.
  - exists v1, v2, v3, v4. auto.
  - destruct Hw1 as (c & Hc & Hw1). rewrite Hc1 in Hc. injection Hc as <-.
    destruct Hw2 as (c & Hc & Hw2). rewrite Hc1 in Hc. injection Hc as <-.
    destruct Hw3 as (c & Hc & Hw3). rewrite Hc1 in Hc. injection Hc as <-.
    destruct Hw4 as (c & Hc & Hw4). rewrite Hc1 in Hc. injection Hc as <-.
    exists w1, w2, w3, w4. auto.
Qed.

Lemma plot_full : plot_elbicare elbi_full calib_tens = Ok report_full.
Proof. vm_compute. reflexivity. Qed.

(** The average theorem on the document with the six slots. *)
Lemma elbi_full_average_witness :
  plot_elbicare elbi_full calib_tens = Ok report_full /\
  (forall i, In i (seq 0 6) -> contains elbi_channel_left (freq_key i) = true) /\
  freq_list (elbi_series_of report_full) = [250; 500; 1000; 2000; 4000; 8000].
Proof.
  assert (forall i, In i (seq 0 6) ->
            contains elbi_channel_left (freq_key i) = true) as Hall.
  { intros i Hi. cbn [seq In] in Hi.
    decompose [or] Hi; subst; try contradiction; vm_compute; reflexivity. }
  split; [exact plot_full |]. split; [exact Hall |].
  apply (elbi_full_average elbi_full calib_tens report_full elbi_audiogram_full
           elbi_channel_left elbi_channel_right plot_full
           (lookup_singleton_eq _ _) (lookup_insert_eq _ _ _)).
  - unfold elbi_audiogram_full. rewrite lookup_insert_ne by discriminate.
    apply lookup_singleton_eq.
  - exact Hall.
Defined.

(** X16: when the left ear of a turning-point document holds the seven
    slots, the report lists the canonical grid and each ear's average is
    the mean of the ear's hearing levels at slots 2 to 5, which are 500,
    1000, 2000 and 4000 Hz. *)
Theorem pyco_full_average (pyco_data : document) (r : pyco_report)
    (a : audiogram) (c0 c1 : channel) :
  plot_pychoacoustics pyco_data = Ok r ->
  pyco_data !! "audiogram" = Some a ->
  a !! "ch_0" = Some c0 -> a !! "ch_1" = Some c1 ->
  (forall i, In i (seq 0 7) -> contains c0 (freq_key i) = true) ->
  valid_freq r = canonical_frequencies /\
  (exists v2 v3 v4 v5,
     hl_value c0 c0 2 = Ok v2 /\ hl_value c0 c0 3 = Ok v3 /\
     hl_value c0 c0 4 = Ok v4 /\ hl_value c0 c0 5 = Ok v5 /\
     mean4 v2 v3 v4 v5 = Ok (pyco_pta_L r)) /\
  (exists v2 v3 v4 v5,
     hl_value c0 c1 2 = Ok v2 /\ hl_value c0 c1 3 = Ok v3 /\
     hl_value c0 c1 4 = Ok v4 /\ hl_value c0 c1 5 = Ok v5 /\
     mean4 v2 v3 v4 v5 = Ok (pyco_pta_R r)).
Proof.
  intros H Ha Hc0 Hc1 Hall.
  pose proof (plot_pychoacoustics_pta _ _ H) as Hpta.
  destruct (plot_pychoacoustics_values _ _ _ _ Ha Hc0 H) as [HL HR].
  destruct (plot_pychoacoustics_ok_inv _ _ H) as (a' & c0' & Ha' & Hc0' & Hf & _).
  rewrite Ha in Ha'. injection Ha' as <-.
  rewrite Hc0 in Hc0'. injection Hc0' as <-.
  pose proof (pyco_present_slots c0 (seq 0 7)) as Hfs.
  rewrite <- Hf in Hfs.
  assert (Forall (fun i => is_Some (nth_error canonical_frequencies i)) (seq 0 7))
    as Hseq by (cbn [seq]; repeat constructor; vm_compute; eauto).
  specialize (Hfs Hseq). clear Hseq Hf.
  rewrite (present_slots_all _ _ Hall) in Hfs, HL, HR. cbn [seq] in Hfs, HL, HR.
  destruct r as [fs vs_L vs_R pta_L pta_R].
  cbn [valid_freq valid_dbhl_L valid_dbhl_R pyco_pta_L pyco_pta_R] in *.
  forall2_head Hfs f0 Hf0. forall2_head Hfs f1 Hf1. forall2_head Hfs f2 Hf2.
  forall2_head Hfs f3 Hf3. forall2_head Hfs f4 Hf4. forall2_head Hfs f5 Hf5.
  forall2_head Hfs f6 Hf6.
  apply Forall2_nil_inv_l in Hfs as ->.
  forall2_head HL v0 Hv0. forall2_head HL v1 Hv1. forall2_head HL v2 Hv2.
  forall2_head HL v3 Hv3. forall2_head HL v4 Hv4. forall2_head HL v5 Hv5.
  forall2_head HL v6 Hv6.
  apply Forall2_nil_inv_l in HL as ->.
  forall2_head HR w0 Hw0. forall2_head HR w1 Hw1. forall2_head HR w2 Hw2.
  forall2_head HR w3 Hw3. forall2_head HR w4 Hw4. forall2_head HR w5 Hw5.
  forall2_head HR w6 Hw6.
  apply Forall2_nil_inv_l in HR as ->.
  rewrite pyco_pta_full in Hpta.
  apply bind_ok_inv in Hpta as (p_L & HpL & Hpta).
  apply bind_ok_inv in Hpta as (p_R & HpR & Hpta).
  injection Hpta as <- <-.
  split; [| split].
  - cbn in Hf0, Hf1, Hf2, Hf3, Hf4, Hf5, Hf6. unfold canonical_frequencies. congruence.
  - exists v2, v3, v4, v5. auto.
  - destruct Hw2 as (c & Hc & Hw2). rewrite Hc1 in Hc. injection Hc as <-.
    destruct Hw3 as (c & Hc & Hw3). rewrite Hc1 in Hc. injection Hc as <-.
    destruct Hw4 as (c & Hc & Hw4). rewrite Hc1 in Hc. injection Hc as <-.
    destruct Hw5 as (c & Hc & Hw5). rewrite Hc1 in Hc. injection Hc as <-.
    exists w2, w3, w4, w5. auto.
Qed.

Lemma plot_pyco_full : plot_pychoacoustics pyco_full = Ok pyco_report_full.
Proof. vm_compute. reflexivity. Qed.

(** The average theorem on the document with the seven slots. *)
Lemma pyco_full_average_witness :
  plot_pychoacoustics pyco_full = Ok pyco_report_full /\
  (forall i, In i (seq 0 7) ->
     contains (pyco_channel_of (Float64.of_ratio 50 1)) (freq_key i) = true) /\
  valid_freq pyco_report_full = canonical_frequencies.
Proof.
  assert (forall i, In i (seq 0 7) ->
            contains (pyco_channel_of (Float64.of_ratio 50 1)) (freq_key i) = true)
    as Hall.
  { intros i Hi. cbn [seq In] in Hi.
    decompose [or] Hi; subst; try contradiction; vm_compute; reflexivity. }
  split; [exact plot_pyco_full |]. split; [exact Hall |].
  apply (pyco_full_average pyco_full pyco_report_full pyco_audiogram_full
           (pyco_channel_of (Float64.of_ratio 50 1))
           (pyco_channel_of (Float64.of_ratio 60 1)) plot_pyco_full
           (lookup_singleton_eq _ _) (lookup_insert_eq _ _ _)).
  - unfold pyco_audiogram_full. rewrite lookup_insert_ne by discriminate.
    apply lookup_singleton_eq.
  - exact Hall.
Defined.
